(** * Transaction lifecycle of the fiat-to-crypto gateway

    A shallow embedding of the three request handlers of the gateway
    ([POST /api/transactions], [GET /api/transactions/:id],
    [POST /api/webhook/moonpay]) together with the part of the record store
    they use, and the properties of the transaction lifecycle proved about
    them.

    - JSON and JavaScript values are an inductive type [value]; property
      access, truthiness and string conversion follow JavaScript.
    - The data base is explicit state ([store]): the two tables, the
      auto-increment counter of the transaction table and the clock that
      stamps [createdAt] / [updatedAt].
    - A handler is a computation in the monad [M]: it threads the store, may
      throw (every handler body sits in a [try]/[catch]) and may suspend on a
      call to the payment processor ([Await]); the suspended computation
      exposes the store as it is at the moment of the call.
    - The payment processor is an arbitrary function from calls to results
      ([run] plays a handler against it and records the calls made).
    - The record store is the ORM the handlers call.  A row of the table is
      a record ([Transaction.t]); what [create], [findByPk] and [findOne]
      hand to a handler is an instance, modelled by its data values, an
      object: the handlers read attributes of it, call [update] on it and
      pass it to [res.json], which serialises the data values. *)

From Stdlib Require Import ZArith List String Ascii Bool Lia DecimalString DecimalZ DecimalPos.
Import ListNotations.
Open Scope string_scope.
Open Scope Z_scope.

Set Warnings "-register-all".

(** ** JavaScript values *)

Inductive value : Type :=
| VUndefined
| VNull
| VBool (b : bool)
| VNum (n : Z)
| VStr (s : string)
| VArr (items : list value)
| VObj (fields : list (string * value)).

(** Numbers are carried as integers: the handlers never compute with an
    amount, they only move it from one object to another. *)

Fixpoint lookup (k : string) (fields : list (string * value)) : value :=
  match fields with
  | [] => VUndefined
  | (k', v) :: rest => if String.eqb k k' then v else lookup k rest
  end.

(** [o.k] for a target that is neither [undefined] nor [null].  On a
    primitive or an array the property names the handlers use ([id],
    [status], [walletAddress], ...) are not defined, so the result is
    [undefined]. *)
Definition get (o : value) (k : string) : value :=
  match o with
  | VObj fields => lookup k fields
  | _ => VUndefined
  end.

(** [o.k = v] on an object under construction: an existing key keeps its
    place, a new key goes last. *)
Fixpoint assign (k : string) (v : value) (fields : list (string * value))
  : list (string * value) :=
  match fields with
  | [] => [(k, v)]
  | (k', v') :: rest =>
      if String.eqb k k' then (k, v) :: rest else (k', v') :: assign k v rest
  end.

Definition set (o : value) (k : string) (v : value) : value :=
  match o with
  | VObj fields => VObj (assign k v fields)
  | _ => o
  end.

(** The condition of [if (v)] and the operands of [!v], [&&], [||]. *)
Definition truthy (v : value) : bool :=
  match v with
  | VUndefined | VNull => false
  | VBool b => b
  | VNum n => negb (n =? 0)
  | VStr s => negb (String.eqb s "")
  | VArr _ | VObj _ => true
  end.

Definition nullish (v : value) : bool :=
  match v with
  | VUndefined | VNull => true
  | _ => false
  end.

(** [v === s] for a string literal [s]. *)
Definition strict_eq_str (v : value) (s : string) : bool :=
  match v with
  | VStr s' => String.eqb s' s
  | _ => false
  end.

(** Deep equality of two values, as the record store's change detection
    compares the value given for an attribute with the one the instance
    has. *)
Fixpoint value_eqb (a b : value) : bool :=
  match a, b with
  | VUndefined, VUndefined => true
  | VNull, VNull => true
  | VBool x, VBool y => Bool.eqb x y
  | VNum x, VNum y => x =? y
  | VStr x, VStr y => String.eqb x y
  | VArr xs, VArr ys =>
      (fix items (xs ys : list value) : bool :=
         match xs, ys with
         | [], [] => true
         | x :: xs', y :: ys' => value_eqb x y && items xs' ys'
         | _, _ => false
         end) xs ys
  | VObj xs, VObj ys =>
      (fix fields (xs ys : list (string * value)) : bool :=
         match xs, ys with
         | [], [] => true
         | (k, x) :: xs', (k', y) :: ys' =>
             String.eqb k k' && value_eqb x y && fields xs' ys'
         | _, _ => false
         end) xs ys
  | _, _ => false
  end.

(** [n.toString()] of an integer. *)
Definition Z_toString (n : Z) : string :=
  NilZero.string_of_int (Z.to_int n).

(** String conversion, as a template literal performs it. *)
Fixpoint toString (v : value) : string :=
  match v with
  | VUndefined => "undefined"
  | VNull => "null"
  | VBool true => "true"
  | VBool false => "false"
  | VNum n => Z_toString n
  | VStr s => s
  | VArr items =>
      String.concat ","
        (map (fun i => if nullish i then "" else toString i) items)
  | VObj _ => "[object Object]"
  end.

(** ** Errors, responses and processor calls *)

(** A thrown error: its [message] and, for an axios error that carries an
    HTTP response, [response.data]. *)
Record js_error : Type := mkError {
  message : string;
  response_data : option value
}.

Definition TypeError (msg : string) : js_error := mkError msg None.
Definition SequelizeError (msg : string) : js_error := mkError msg None.

(** [error.response?.data || error.message] *)
Definition error_details (e : js_error) : value :=
  match response_data e with
  | Some d => if truthy d then d else VStr (message e)
  | None => VStr (message e)
  end.

(** What a handler sends: the value it hands to [res.json] (serialisation
    then leaves out the members whose value is undefined), or a text. *)
Inductive body : Type :=
| Json (v : value)
| Text (s : string).

Record response : Type := mkResponse {
  statusCode : Z;
  sent : body
}.

(** [res.json(v)], [res.status(c).json(v)], [res.status(c).send(s)] *)
Definition res_json (v : value) : response := mkResponse 200 (Json v).
Definition res_status_json (c : Z) (v : value) : response := mkResponse c (Json v).
Definition res_status_send (c : Z) (s : string) : response := mkResponse c (Text s).

Inductive call : Type :=
| AxiosPost (url : string) (data : value) (headers : list (string * value))
| AxiosGet (url : string) (headers : list (string * value)).

(** What an axios call settles to: a response, of which the handlers read
    [data] only, or a rejection (network failure, timeout, or a status
    outside 2xx). *)
Inductive axios_result : Type :=
| Fulfilled (data : value)
| Rejected (e : js_error).

Definition MOONPAY_BASE_URL : string := "https://api.moonpay.com".

(** ** Records *)

Module User.

(** Modelled from the spec: the user model ([models/user.js]) is not among
    the sources.  The spec gives a user an identifier, first name, last
    name, email, phone number and government ID number. *)
Record t : Type := mk {
  id : Z;
  firstName : value;
  lastName : value;
  email : value;
  phone : value;
  idNumber : value
}.

End User.

Module Transaction.

Record t : Type := mk {
  id : Z;
  userId : value;
  amount : value;
  currency : value;
  cryptoAmount : value;
  cryptoCurrency : value;
  status : value;
  paymentMethod : value;
  moonpayTransactionId : value;
  createdAt : Z;
  updatedAt : Z
}.

(** [instance[name]] for the attributes declared by [Transaction.init]. *)
Definition get_attr (name : string) (r : t) : value :=
  if String.eqb name "userId" then userId r
  else if String.eqb name "amount" then amount r
  else if String.eqb name "currency" then currency r
  else if String.eqb name "cryptoAmount" then cryptoAmount r
  else if String.eqb name "cryptoCurrency" then cryptoCurrency r
  else if String.eqb name "status" then status r
  else if String.eqb name "paymentMethod" then paymentMethod r
  else if String.eqb name "moonpayTransactionId" then moonpayTransactionId r
  else VUndefined.

(** [instance[name] = v] for the same attributes; another name does not
    reach the table. *)
Definition set_attr (name : string) (v : value) (r : t) : t :=
  if String.eqb name "userId" then
    mk (id r) v (amount r) (currency r) (cryptoAmount r) (cryptoCurrency r)
       (status r) (paymentMethod r) (moonpayTransactionId r) (createdAt r) (updatedAt r)
  else if String.eqb name "amount" then
    mk (id r) (userId r) v (currency r) (cryptoAmount r) (cryptoCurrency r)
       (status r) (paymentMethod r) (moonpayTransactionId r) (createdAt r) (updatedAt r)
  else if String.eqb name "currency" then
    mk (id r) (userId r) (amount r) v (cryptoAmount r) (cryptoCurrency r)
       (status r) (paymentMethod r) (moonpayTransactionId r) (createdAt r) (updatedAt r)
  else if String.eqb name "cryptoAmount" then
    mk (id r) (userId r) (amount r) (currency r) v (cryptoCurrency r)
       (status r) (paymentMethod r) (moonpayTransactionId r) (createdAt r) (updatedAt r)
  else if String.eqb name "cryptoCurrency" then
    mk (id r) (userId r) (amount r) (currency r) (cryptoAmount r) v
       (status r) (paymentMethod r) (moonpayTransactionId r) (createdAt r) (updatedAt r)
  else if String.eqb name "status" then
    mk (id r) (userId r) (amount r) (currency r) (cryptoAmount r) (cryptoCurrency r)
       v (paymentMethod r) (moonpayTransactionId r) (createdAt r) (updatedAt r)
  else if String.eqb name "paymentMethod" then
    mk (id r) (userId r) (amount r) (currency r) (cryptoAmount r) (cryptoCurrency r)
       (status r) v (moonpayTransactionId r) (createdAt r) (updatedAt r)
  else if String.eqb name "moonpayTransactionId" then
    mk (id r) (userId r) (amount r) (currency r) (cryptoAmount r) (cryptoCurrency r)
       (status r) (paymentMethod r) v (createdAt r) (updatedAt r)
  else r.

Definition touch (now : Z) (r : t) : t :=
  mk (id r) (userId r) (amount r) (currency r) (cryptoAmount r) (cryptoCurrency r)
     (status r) (paymentMethod r) (moonpayTransactionId r) (createdAt r) now.

(** The instance of a row read from the table, which is also what
    [res.json] sends for it: the value of every column, in the order of the
    columns. *)
Definition toJSON (r : t) : value :=
  VObj [("id", VNum (id r));
        ("userId", userId r);
        ("amount", amount r);
        ("currency", currency r);
        ("cryptoAmount", cryptoAmount r);
        ("cryptoCurrency", cryptoCurrency r);
        ("status", status r);
        ("paymentMethod", paymentMethod r);
        ("moonpayTransactionId", moonpayTransactionId r);
        ("createdAt", VNum (createdAt r));
        ("updatedAt", VNum (updatedAt r))].

End Transaction.

(** ** The store *)

Record store : Type := mkStore {
  Users : list User.t;
  Transactions : list Transaction.t;
  next_id : Z;
  clock : Z
}.

(** ** The handler monad *)

Inductive Res (A : Type) : Type :=
| Ret (a : A) (s : store)
| Throw (e : js_error) (s : store)
| Await (c : call) (s : store) (k : axios_result -> store -> Res A).

Arguments Ret {A} a s.
Arguments Throw {A} e s.
Arguments Await {A} c s k.

Definition M (A : Type) : Type := store -> Res A.

Definition ret {A} (a : A) : M A := fun s => Ret a s.
Definition throw {A} (e : js_error) : M A := fun s => Throw e s.

Fixpoint bindR {A B} (r : Res A) (f : A -> M B) : Res B :=
  match r with
  | Ret a s => f a s
  | Throw e s => Throw e s
  | Await c s k => Await c s (fun x s' => bindR (k x s') f)
  end.

Definition bind {A B} (m : M A) (f : A -> M B) : M B :=
  fun s => bindR (m s) f.

Fixpoint catchR {A} (r : Res A) (h : js_error -> M A) : Res A :=
  match r with
  | Ret a s => Ret a s
  | Throw e s => h e s
  | Await c s k => Await c s (fun x s' => catchR (k x s') h)
  end.

(** [try { m } catch (error) { h error }] *)
Definition try_catch {A} (m : M A) (h : js_error -> M A) : M A :=
  fun s => catchR (m s) h.

Declare Scope js_scope.
Delimit Scope js_scope with js.
Notation "x <- m ;; f" := (bind m (fun x => f))
  (at level 61, m at next level, right associativity) : js_scope.
Open Scope js_scope.

(** [await axios.post(...)] / [await axios.get(...)]: the value is
    [response.data]. *)
Definition axios (c : call) : M value :=
  fun s => Await c s (fun r s' =>
    match r with
    | Fulfilled d => Ret d s'
    | Rejected e => Throw e s'
    end).

(** [o.k] as an expression: reading a property of [undefined] or [null]
    throws a [TypeError]. *)
Definition prop (o : value) (k : string) : M value :=
  if nullish o
  then throw (TypeError ("Cannot read properties of " ++ toString o ++
                         " (reading '" ++ k ++ "')"))
  else ret (get o k).

(** Plays a handler against a processor and returns its outcome, the final
    store and the processor calls in the order they were made. *)
Fixpoint run {A} (processor : call -> axios_result) (r : Res A)
  : (A + js_error) * store * list call :=
  match r with
  | Ret a s => (inl a, s, [])
  | Throw e s => (inr e, s, [])
  | Await c s k =>
      let '(x, s', cs) := run processor (k (processor c) s) in
      (x, s', c :: cs)
  end.

(** ** The transaction model and its table *)

Inductive DataType : Type := INTEGER | FLOAT | STRING | DATE.

(** A column of [queryInterface.createTable] (the migration). *)
Record column : Type := mkColumn {
  col_name : string;
  col_type : DataType;
  col_allowNull : bool;
  col_autoIncrement : bool;
  col_primaryKey : bool
}.

(** [up] of the migration: the [Transactions] table.  A column that does not
    say [allowNull: false] is nullable. *)
Definition Transactions_table : list column :=
  [ mkColumn "id" INTEGER false true true;
    mkColumn "userId" INTEGER true false false;
    mkColumn "amount" FLOAT true false false;
    mkColumn "currency" STRING true false false;
    mkColumn "cryptoAmount" FLOAT true false false;
    mkColumn "cryptoCurrency" STRING true false false;
    mkColumn "status" STRING true false false;
    mkColumn "paymentMethod" STRING true false false;
    mkColumn "moonpayTransactionId" STRING true false false;
    mkColumn "createdAt" DATE false false false;
    mkColumn "updatedAt" DATE false false false ].

(** An attribute of a model: [name: DataTypes.T] declares the type and
    nothing else, so [allowNull] has its default, [true], and there is no
    validator. *)
Record attribute : Type := mkAttribute {
  attr_name : string;
  attr_type : DataType;
  attr_allowNull : bool
}.

Definition declare (name : string) (ty : DataType) : attribute :=
  mkAttribute name ty true.

(** [Transaction.init({...})] *)
Definition Transaction_init : list attribute :=
  [ declare "userId" INTEGER;
    declare "amount" FLOAT;
    declare "currency" STRING;
    declare "cryptoAmount" FLOAT;
    declare "cryptoCurrency" STRING;
    declare "status" STRING;
    declare "paymentMethod" STRING;
    declare "moonpayTransactionId" STRING ].

Definition is_STRING (ty : DataType) : bool :=
  match ty with STRING => true | _ => false end.

Definition array_or_object (v : value) : bool :=
  match v with VArr _ | VObj _ => true | _ => false end.

(** The schema validation the ORM runs on the attributes it is about to
    save: a [notNull Violation] for a null value of an attribute declared
    [allowNull: false], a [string violation] for an array or object given to
    a [STRING] attribute.  (The identifier and the two timestamps are
    generated and not validated.) *)
Definition violation (a : attribute) (v : value) : option string :=
  if negb (attr_allowNull a) && nullish v
  then Some ("notNull Violation: " ++ attr_name a ++ " cannot be null")
  else if is_STRING (attr_type a) && array_or_object v
  then Some ("string violation: " ++ attr_name a ++ " cannot be an array or an object")
  else None.

(** The violations of [values], attribute by attribute. *)
Fixpoint validate (attrs : list attribute) (values : value) : list string :=
  match attrs with
  | [] => []
  | a :: rest =>
      match violation a (get values (attr_name a)) with
      | Some msg => msg :: validate rest values
      | None => validate rest values
      end
  end.

Definition newline : string := String (ascii_of_nat 10) EmptyString.

(** The message of a validation error that reports several violations:
    one on each line, a comma after each but the last. *)
Definition joined (msgs : list string) : string :=
  String.concat ("," ++ newline) msgs.

Definition ValidationError (msg : string) : js_error :=
  mkError msg None.

(** A value that is [undefined] is not written; the column keeps what it
    has (on insertion: null). *)
Definition write_attr (values : value) (r : Transaction.t) (a : attribute)
  : Transaction.t :=
  match get values (attr_name a) with
  | VUndefined => r
  | v => Transaction.set_attr (attr_name a) v r
  end.

(** The declared attributes of [values] written to [r], one after the
    other.  (The values are kept as they are given: the conversion of a
    value to the type of its column is not modelled.) *)
Definition write_attrs (values : value) (r : Transaction.t) : Transaction.t :=
  fold_left (write_attr values) Transaction_init r.

(** [values] has a value for the attribute. *)
Definition given (values : value) (a : attribute) : bool :=
  match get values (attr_name a) with
  | VUndefined => false
  | _ => true
  end.

(** *** Keys given as text

    The identifier column is an integer column, and the data base compares
    a key given as text with it numerically: the text is read as a number
    when it is a numeral (blanks around it, a sign, digits with an optional
    fraction, an optional exponent), and matches no identifier otherwise. *)

Definition is_space (c : ascii) : bool :=
  let n := nat_of_ascii c in
  (n =? 32)%nat || ((9 <=? n)%nat && (n <=? 13)%nat).

Definition is_digit (c : ascii) : bool :=
  let n := nat_of_ascii c in
  (48 <=? n)%nat && (n <=? 57)%nat.

Fixpoint skip_spaces (s : string) : string :=
  match s with
  | String c rest => if is_space c then skip_spaces rest else s
  | EmptyString => s
  end.

(** The digits a string starts with, and what follows them. *)
Fixpoint digits (s : string) : string * string :=
  match s with
  | String c rest =>
      if is_digit c
      then let (d, r) := digits rest in (String c d, r)
      else (EmptyString, s)
  | EmptyString => (EmptyString, EmptyString)
  end.

Definition sign_of (s : string) : Z * string :=
  match s with
  | String c rest =>
      if Ascii.eqb c "-" then (-1, rest)
      else if Ascii.eqb c "+" then (1, rest)
      else (1, s)
  | EmptyString => (1, s)
  end.

(** The number a string of digits denotes (none denotes 0). *)
Definition digits_value (d : string) : Z :=
  match NilEmpty.uint_of_string d with
  | Some u => Z.of_uint u
  | None => 0
  end.

(** The exponent a numeral may end with, and what follows it; [None] for an
    exponent mark without digits. *)
Definition exponent (s : string) : option (Z * string) :=
  match s with
  | String c rest =>
      if Ascii.eqb c "e" || Ascii.eqb c "E" then
        let (sg, r1) := sign_of rest in
        let (d, r2) := digits r1 in
        match d with
        | EmptyString => None
        | _ => Some (sg * digits_value d, r2)
        end
      else Some (0, s)
  | EmptyString => Some (0, s)
  end.

(** The integer a text key is read as, if it is a numeral and denotes
    one. *)
Definition numeric (s : string) : option Z :=
  let (sg, s1) := sign_of (skip_spaces s) in
  let (ip, s2) := digits s1 in
  let (fp, s3) :=
    match s2 with
    | String c rest => if Ascii.eqb c "." then digits rest else (EmptyString, s2)
    | EmptyString => (EmptyString, s2)
    end in
  match (ip ++ fp)%string, exponent s3 with
  | EmptyString, _ => None
  | _, None => None
  | mantissa, Some (e, s4) =>
      match skip_spaces s4 with
      | EmptyString =>
          let m := digits_value mantissa in
          let k := e - Z.of_nat (String.length fp) in
          if 0 <=? k then Some (sg * (m * 10 ^ k))
          else if m mod 10 ^ (- k) =? 0 then Some (sg * (m / 10 ^ (- k)))
          else None
      | _ => None
      end
  end.

(** *** Queries *)

(** The comparison [id = param] of a primary-key lookup: by value for a
    number, by the number it is read as for a string (the parameter of
    [GET /api/transactions/:id] always is a string). *)
Definition pk_eq (param : value) (id : Z) : bool :=
  match param with
  | VNum n => n =? id
  | VStr s =>
      match numeric s with
      | Some n => n =? id
      | None => false
      end
  | _ => false
  end.

(** The comparison [column = key] of a text column with a scalar key: a
    string with the stored text, a number with the stored text through its
    numeral.  (A row of the model may hold a number or a boolean where the
    table holds text; such a value is matched by a key of its own kind.) *)
Definition column_eq (key stored : value) : bool :=
  match key, stored with
  | VStr a, VStr b => String.eqb a b
  | VNum a, VStr b => String.eqb (Z_toString a) b
  | VNum a, VNum b => a =? b
  | VBool a, VBool b => Bool.eqb a b
  | _, _ => false
  end.

(** The comparison of a [where: { column: key }] clause with a stored
    value: [IS NULL] for a null key, [IN (...)] for an array, equality
    otherwise. *)
Definition where_eq (key stored : value) : bool :=
  match key with
  | VNull => match stored with VNull => true | _ => false end
  | VArr items => existsb (fun k => column_eq k stored) items
  | _ => column_eq key stored
  end.

(** [findByPk(param)]: null without a query for a null or undefined
    parameter, the row with that key for a number or a string, an error for
    anything else. *)
Definition findByPk {R} (id_of : R -> Z) (table : list R) (param : value)
  : js_error + option R :=
  match param with
  | VUndefined | VNull => inr None
  | VNum _ | VStr _ => inr (find (fun r => pk_eq param (id_of r)) table)
  | _ => inl (SequelizeError
                ("Argument passed to findByPk is invalid: " ++ toString param))
  end.

Definition lift {A} (x : js_error + A) : M A :=
  match x with
  | inl e => throw e
  | inr a => ret a
  end.

(** [await User.findByPk(userId)] *)
Definition User_findByPk (param : value) : M (option User.t) :=
  fun s => lift (findByPk User.id (Users s) param) s.

(** [await Transaction.findByPk(id)]: the instance of the row found, with
    the value of every column. *)
Definition Transaction_findByPk (param : value) : M (option value) :=
  fun s =>
    match findByPk Transaction.id (Transactions s) param with
    | inl e => Throw e s
    | inr row => Ret (option_map Transaction.toJSON row) s
    end.

(** [await Transaction.findOne({ where: { moonpayTransactionId: key } })]:
    the instance of the first row that matches; an undefined key and an
    object for a key are refused by the query generator (the webhook
    handler, the one caller, does not look at the message of the error). *)
Definition Transaction_findOne (key : value) : M (option value) :=
  fun s =>
    match key with
    | VUndefined =>
        Throw (SequelizeError
          "WHERE parameter moonpayTransactionId has invalid undefined value") s
    | VObj _ =>
        Throw (SequelizeError "Invalid value [object Object]") s
    | _ =>
        Ret (option_map Transaction.toJSON
               (find (fun r => where_eq key (Transaction.moonpayTransactionId r))
                     (Transactions s))) s
    end.

(** *** Writes *)

(** A row with its generated columns only. *)
Definition blank (id now : Z) : Transaction.t :=
  Transaction.mk id VNull VNull VNull VNull VNull VNull VNull VNull now now.

(** [name] is an attribute the model declares. *)
Definition is_attribute (name : string) : bool :=
  existsb (fun a => String.eqb name (attr_name a)) Transaction_init.

Definition members (o : value) : list (string * value) :=
  match o with
  | VObj fields => fields
  | _ => []
  end.

(** The instance [create] builds for the row [r] it inserts: the
    identifier, the attributes as they were given, one after the other
    (an attribute that was not given has no member), and the two
    timestamps. *)
Definition build (values : value) (r : Transaction.t) : value :=
  VObj ([("id", VNum (Transaction.id r))] ++
        filter (fun m => is_attribute (fst m)) (members values) ++
        [("updatedAt", VNum (Transaction.updatedAt r));
         ("createdAt", VNum (Transaction.createdAt r))]).

(** [await Transaction.create(values)]: validates the declared attributes,
    then inserts a row with the next identifier and both timestamps, in
    which an attribute that is not given is null; the result is the
    instance, not the row. *)
Definition Transaction_create (values : value) : M value :=
  fun s =>
    match validate Transaction_init values with
    | [] =>
        let r := write_attrs values (blank (next_id s) (clock s)) in
        Ret (build values r)
            (mkStore (Users s) (Transactions s ++ [r]) (next_id s + 1) (clock s))
    | msgs => Throw (ValidationError (joined msgs)) s
    end.

(** The rows with identifier [id] rewritten by [f]
    ([UPDATE ... WHERE id = id]). *)
Definition rewrite_row (id : Z) (f : Transaction.t -> Transaction.t) (s : store)
  : store :=
  mkStore (Users s)
          (map (fun r => if Transaction.id r =? id then f r else r) (Transactions s))
          (next_id s) (clock s).

(** The value given for the attribute differs from the one the instance
    has. *)
Definition changed (transaction values : value) (a : attribute) : bool :=
  negb (value_eqb (get values (attr_name a)) (get transaction (attr_name a))).

(** [instance[name] = values[name]] *)
Definition write_value (values transaction : value) (a : attribute) : value :=
  set transaction (attr_name a) (get values (attr_name a)).

(** [await transaction.update(values)]: undefined values are ignored; with
    nothing left there is nothing to save; otherwise the given attributes
    are validated and, when one of them differs from what the instance has,
    written, together with [updatedAt], to the instance and to the row with
    the instance's identifier.  When none differs nothing is written. *)
Definition Transaction_update (transaction values : value) : M value :=
  fun s =>
    match filter (given values) Transaction_init with
    | [] => Ret transaction s
    | fields =>
        match validate fields values with
        | [] =>
            if existsb (changed transaction values) fields then
              Ret (set (fold_left (write_value values) fields transaction)
                       "updatedAt" (VNum (clock s)))
                  (match get transaction "id" with
                   | VNum id =>
                       rewrite_row id
                         (fun r => Transaction.touch (clock s) (write_attrs values r)) s
                   | _ => s
                   end)
            else Ret transaction s
        | msgs => Throw (ValidationError (joined msgs)) s
        end
    end.

(** ** The request handlers *)

Definition headers_post (MOONPAY_API_KEY : value) : list (string * value) :=
  [("Content-Type", VStr "application/json"); ("X-API-KEY", MOONPAY_API_KEY)].

Definition headers_get (MOONPAY_API_KEY : value) : list (string * value) :=
  [("X-API-KEY", MOONPAY_API_KEY)].

(** The payload of the processor's transaction creation, as the handler
    builds it: the object literal first, then [paymentMethod] and, for a card
    payment with card details, [card].  ([transaction.id] is the identifier
    the record store generated, a number.) *)
Definition moonpayPayload (user : User.t) (transaction : value)
    (amount currency cryptoCurrency paymentMethod cardDetails walletAddress : value)
  : value :=
  let payload :=
    VObj [("walletAddress", walletAddress);
          ("currencyCode", cryptoCurrency);
          ("baseCurrencyAmount", amount);
          ("baseCurrencyCode", currency);
          ("externalTransactionId", VStr (toString (get transaction "id")));
          ("customer",
           VObj [("firstName", User.firstName user);
                 ("lastName", User.lastName user);
                 ("email", User.email user);
                 ("phoneNumber", User.phone user);
                 ("externalCustomerId", VStr (Z_toString (User.id user)))])] in
  if strict_eq_str paymentMethod "card_payment" && truthy cardDetails then
    set (set payload "paymentMethod" (VStr "credit_debit_card"))
        "card"
        (VObj [("number", get cardDetails "cardNumber");
               ("expirationMonth", get cardDetails "expiryMonth");
               ("expirationYear", get cardDetails "expiryYear");
               ("cvc", get cardDetails "cvv");
               ("cardholderName", get cardDetails "cardholderName")])
  else
    set payload "paymentMethod" paymentMethod.

(** [app.post('/api/transactions', ...)] *)
Definition post_api_transactions (MOONPAY_API_KEY : value) (req_body : value)
  : M response :=
  try_catch
    (userId <- prop req_body "userId";;
     let amount := get req_body "amount" in
     let currency := get req_body "currency" in
     let cryptoCurrency := get req_body "cryptoCurrency" in
     let paymentMethod := get req_body "paymentMethod" in
     let cardDetails := get req_body "cardDetails" in
     let userDetails := get req_body "userDetails" in
     user <- User_findByPk userId;;
     match user with
     | None =>
         ret (res_status_json 404 (VObj [("error", VStr "User not found")]))
     | Some user =>
         transaction <- Transaction_create
           (VObj [("userId", userId);
                  ("amount", amount);
                  ("currency", currency);
                  ("cryptoCurrency", cryptoCurrency);
                  ("status", VStr "pending");
                  ("paymentMethod", paymentMethod)]);;
         walletAddress <- prop userDetails "walletAddress";;
         data <- axios (AxiosPost (MOONPAY_BASE_URL ++ "/v1/transactions")
                          (moonpayPayload user transaction amount currency
                             cryptoCurrency paymentMethod cardDetails walletAddress)
                          (headers_post MOONPAY_API_KEY));;
         id <- prop data "id";;
         transaction <- Transaction_update transaction
           (VObj [("moonpayTransactionId", id);
                  ("status", get data "status")]);;
         ret (res_json (VObj [("transaction", transaction);
                              ("moonpayUrl", get data "redirectUrl")]))
     end)
    (fun error =>
       ret (res_status_json 500
              (VObj [("error", VStr "Transaction failed");
                     ("details", error_details error)]))).

(** [app.get('/api/transactions/:id', ...)]; [req.params.id] is the path
    segment, a string. *)
Definition get_api_transactions_id (MOONPAY_API_KEY : value) (req_params_id : string)
  : M response :=
  try_catch
    (transaction <- Transaction_findByPk (VStr req_params_id);;
     match transaction with
     | None =>
         ret (res_status_json 404 (VObj [("error", VStr "Transaction not found")]))
     | Some transaction =>
         transaction <-
           (if truthy (get transaction "moonpayTransactionId") then
              data <- axios (AxiosGet
                               (MOONPAY_BASE_URL ++ "/v1/transactions/" ++
                                toString (get transaction "moonpayTransactionId"))
                               (headers_get MOONPAY_API_KEY));;
              status <- prop data "status";;
              Transaction_update transaction
                (VObj [("status", status);
                       ("cryptoAmount", get data "cryptoAmount")])
            else ret transaction);;
         ret (res_json transaction)
     end)
    (fun error =>
       ret (res_status_json 500 (VObj [("error", VStr "Failed to fetch transaction")]))).

(** [app.post('/api/webhook/moonpay', ...)] *)
Definition post_api_webhook_moonpay (req_body : value) : M response :=
  try_catch
    (data <- prop req_body "data";;
     id <- prop data "id";;
     transaction <- Transaction_findOne id;;
     _ <- match transaction with
          | Some transaction =>
              _ <- Transaction_update transaction
                     (VObj [("status", get data "status");
                            ("cryptoAmount", get data "cryptoAmount")]);;
              ret tt
          | None => ret tt
          end;;
     ret (res_status_send 200 "OK"))
    (fun error => ret (res_status_send 500 "Error processing webhook")).

(** ** Serving requests *)

Inductive request : Type :=
| CreateTransaction (req_body : value)
| FetchTransaction (req_params_id : string)
| Webhook (req_body : value).

Definition handle (MOONPAY_API_KEY : value) (q : request) : M response :=
  match q with
  | CreateTransaction req_body => post_api_transactions MOONPAY_API_KEY req_body
  | FetchTransaction id => get_api_transactions_id MOONPAY_API_KEY id
  | Webhook req_body => post_api_webhook_moonpay req_body
  end.

(** A request as the server meets it: the time it arrives at, what the
    processor answers while it is served, and the request itself. *)
Record arrival : Type := mkArrival {
  now : Z;
  processor : call -> axios_result;
  req : request
}.

Definition at_time (t : Z) (s : store) : store :=
  mkStore (Users s) (Transactions s) (next_id s) t.

Definition final_store {A} (x : (A + js_error) * store * list call) : store :=
  snd (fst x).

Definition calls_made {A} (x : (A + js_error) * store * list call) : list call :=
  snd x.

Definition outcome {A} (x : (A + js_error) * store * list call) : A + js_error :=
  fst (fst x).

Definition serve (MOONPAY_API_KEY : value) (s : store) (a : arrival) : store :=
  final_store (run (processor a) (handle MOONPAY_API_KEY (req a) (at_time (now a) s))).

Definition serve_all (MOONPAY_API_KEY : value) (s : store) (l : list arrival) : store :=
  fold_left (serve MOONPAY_API_KEY) l s.

(** The primary key of the transaction table: identifiers are distinct and
    below the auto-increment counter. *)
Definition primary_key (s : store) : Prop :=
  NoDup (map Transaction.id (Transactions s)) /\
  Forall (fun r => Transaction.id r < next_id s) (Transactions s).

(** What a write leaves in an attribute: the given value, or the old one
    when the value is undefined. *)
Definition merge (given old : value) : value :=
  match given with
  | VUndefined => old
  | v => v
  end.

(** The names of the attributes [Transaction.init] declares. *)
Definition declared : list string := map attr_name Transaction_init.

(** ** Notions used in the statements *)

Definition undefined (v : value) : bool :=
  match v with VUndefined => true | _ => false end.

(** A value a [STRING] attribute accepts. *)
Definition text_ok (v : value) : bool := negb (array_or_object v).


(** A status as the processor sends one: a string, null, or none. *)
Definition status_like (v : value) : bool :=
  match v with
  | VStr _ | VNull | VUndefined => true
  | _ => false
  end.

(** A crypto amount as the processor sends one: a number, null, or none. *)
Definition amount_like (v : value) : bool :=
  match v with
  | VNum _ | VNull | VUndefined => true
  | _ => false
  end.

Definition is_string (v : value) : bool :=
  match v with
  | VStr _ => true
  | _ => false
  end.

(** An external id a webhook payload can be looked up by: a string, null,
    or an array of strings. *)
Definition external_id_like (v : value) : bool :=
  match v with
  | VStr _ | VNull => true
  | VArr items => forallb is_string items
  | _ => false
  end.

(** Some [STRING] attribute is given an array or an object. *)
Definition string_violation (values : value) : bool :=
  existsb (fun a => is_STRING (attr_type a) && array_or_object (get values (attr_name a)))
          Transaction_init.

(** The three text fields of a creation request are not arrays or objects
    (the request schema makes them strings). *)
Definition acceptable_request (req_body : value) : bool :=
  text_ok (get req_body "currency") &&
  text_ok (get req_body "cryptoCurrency") &&
  text_ok (get req_body "paymentMethod").

(** The message of the violation for the attribute [name]. *)
Definition string_violation_of (name : string) : string :=
  "string violation: " ++ name ++ " cannot be an array or an object".

(** The first of the three text fields of a creation request that is an
    array or an object (when there is one). *)
Definition first_malformed (req_body : value) : string :=
  if array_or_object (get req_body "currency") then "currency"
  else if array_or_object (get req_body "cryptoCurrency") then "cryptoCurrency"
  else "paymentMethod".

(** The row the creation handler inserts for a request. *)
Definition pending_record (req_body : value) (s : store) : Transaction.t :=
  Transaction.mk (next_id s)
    (merge (get req_body "userId") VNull)
    (merge (get req_body "amount") VNull)
    (merge (get req_body "currency") VNull)
    VNull
    (merge (get req_body "cryptoCurrency") VNull)
    (VStr "pending")
    (merge (get req_body "paymentMethod") VNull)
    VNull (clock s) (clock s).

Definition inserted (r : Transaction.t) (s : store) : store :=
  mkStore (Users s) (Transactions s ++ [r]) (next_id s + 1) (clock s).

(** The instance the creation handler holds for that row: the values of
    the request as they came. *)
Definition pending_instance (req_body : value) (s : store) : value :=
  VObj [("id", VNum (next_id s));
        ("userId", get req_body "userId");
        ("amount", get req_body "amount");
        ("currency", get req_body "currency");
        ("cryptoCurrency", get req_body "cryptoCurrency");
        ("status", VStr "pending");
        ("paymentMethod", get req_body "paymentMethod");
        ("updatedAt", VNum (clock s));
        ("createdAt", VNum (clock s))].

(** That instance after [update({ moonpayTransactionId, status })] at time
    [now]: the status is the given one if there is one, the external id
    becomes a member if one is given. *)
Definition accepted_instance (req_body : value) (s : store) (ext st : value) (now : Z)
  : value :=
  VObj ([("id", VNum (next_id s));
         ("userId", get req_body "userId");
         ("amount", get req_body "amount");
         ("currency", get req_body "currency");
         ("cryptoCurrency", get req_body "cryptoCurrency");
         ("status", merge st (VStr "pending"));
         ("paymentMethod", get req_body "paymentMethod");
         ("updatedAt", VNum now);
         ("createdAt", VNum (clock s))] ++
        match ext with
        | VUndefined => []
        | _ => [("moonpayTransactionId", ext)]
        end).

(** A row after [update({ status, cryptoAmount })] at time [now]. *)
Definition reconciled (st ca : value) (now : Z) (r : Transaction.t) : Transaction.t :=
  Transaction.mk (Transaction.id r) (Transaction.userId r) (Transaction.amount r)
    (Transaction.currency r) (merge ca (Transaction.cryptoAmount r))
    (Transaction.cryptoCurrency r) (merge st (Transaction.status r))
    (Transaction.paymentMethod r) (Transaction.moonpayTransactionId r)
    (Transaction.createdAt r) now.

(** A row after [update({ moonpayTransactionId, status })] at time [now]. *)
Definition accepted (ext st : value) (now : Z) (r : Transaction.t) : Transaction.t :=
  Transaction.mk (Transaction.id r) (Transaction.userId r) (Transaction.amount r)
    (Transaction.currency r) (Transaction.cryptoAmount r)
    (Transaction.cryptoCurrency r) (merge st (Transaction.status r))
    (Transaction.paymentMethod r) (merge ext (Transaction.moonpayTransactionId r))
    (Transaction.createdAt r) now.

(** The responses of the creation handler. *)
Definition user_not_found : response :=
  res_status_json 404 (VObj [("error", VStr "User not found")]).

Definition failed (e : js_error) : response :=
  res_status_json 500
    (VObj [("error", VStr "Transaction failed"); ("details", error_details e)]).

Definition created (transaction : value) (data : value) : response :=
  res_json (VObj [("transaction", transaction);
                  ("moonpayUrl", get data "redirectUrl")]).

(** The responses of the fetch handler. *)
Definition transaction_not_found : response :=
  res_status_json 404 (VObj [("error", VStr "Transaction not found")]).

Definition fetch_failed : response :=
  res_status_json 500 (VObj [("error", VStr "Failed to fetch transaction")]).

(** The responses of the webhook handler. *)
Definition webhook_ok : response := res_status_send 200 "OK".
Definition webhook_error : response := res_status_send 500 "Error processing webhook".

(** The value given for an attribute leaves the attribute as it is: there
    is none, or it is the value the instance has. *)
Definition unchanged (given old : value) : bool :=
  undefined given || value_eqb given old.

(** The outcome of [update({ moonpayTransactionId, status })] on the
    instance the creation handler holds, spelled out: the error thrown, or
    the instance and the store after the write. *)
Definition merge_accepted (req_body : value) (s0 : store) (ext st : value) (s : store)
  : js_error + value * store :=
  match ((if array_or_object st then [string_violation_of "status"] else []) ++
         (if array_or_object ext then [string_violation_of "moonpayTransactionId"] else []))%list
  with
  | [] =>
      if unchanged st (VStr "pending") && undefined ext
      then inr (pending_instance req_body s0, s)
      else inr (accepted_instance req_body s0 ext st (clock s),
                rewrite_row (next_id s0) (accepted ext st (clock s)) s)
  | msgs => inl (ValidationError (joined msgs))
  end.

(** The outcome of [update({ status, cryptoAmount })] on the instance of
    the row [t], spelled out: the error thrown, or the row of the instance
    and the store after the write. *)
Definition merge_reconciled (t : Transaction.t) (st ca : value) (s : store)
  : js_error + Transaction.t * store :=
  if array_or_object st
  then inl (ValidationError (string_violation_of "status"))
  else if unchanged st (Transaction.status t) &&
          unchanged ca (Transaction.cryptoAmount t)
  then inr (t, s)
  else inr (reconciled st ca (clock s) t,
            rewrite_row (Transaction.id t) (reconciled st ca (clock s)) s).

Definition settled {A} (x : js_error + A * store) (s : store) : Res A :=
  match x with
  | inl e => Throw e s
  | inr (a, s') => Ret a s'
  end.

(** How the creation handler finishes once the processor has settled. *)
Definition settle_create (req_body : value) (s0 : store) (r : axios_result) (s : store)
  : Res response :=
  match r with
  | Rejected e => Ret (failed e) s
  | Fulfilled data =>
      if nullish data
      then Ret (failed (TypeError ("Cannot read properties of " ++ toString data ++
                                   " (reading 'id')"))) s
      else
        match merge_accepted req_body s0 (get data "id") (get data "status") s with
        | inr (t', s') => Ret (created t' data) s'
        | inl e => Ret (failed e) s
        end
  end.

(** How the fetch handler finishes once the processor has settled. *)
Definition settle_fetch (t : Transaction.t) (r : axios_result) (s : store)
  : Res response :=
  match r with
  | Rejected e => Ret fetch_failed s
  | Fulfilled data =>
      if nullish data then Ret fetch_failed s
      else
        match merge_reconciled t (get data "status") (get data "cryptoAmount") s with
        | inr (t', s') => Ret (res_json (Transaction.toJSON t')) s'
        | inl e => Ret fetch_failed s
        end
  end.

(** A key [findOne] refuses: none, or an object. *)
Definition refused_key (key : value) : bool :=
  match key with
  | VUndefined | VObj _ => true
  | _ => false
  end.

(** How the webhook handler finishes for a payload [data] with an external
    identifier to look up. *)
Definition settle_webhook (data : value) (s : store) : Res response :=
  match find (fun r => where_eq (get data "id") (Transaction.moonpayTransactionId r))
             (Transactions s) with
  | None => Ret webhook_ok s
  | Some t =>
      match merge_reconciled t (get data "status") (get data "cryptoAmount") s with
      | inr (_, s') => Ret webhook_ok s'
      | inl e => Ret webhook_error s
      end
  end.

(** The creation handler, path by path. *)
Inductive post_spec (MOONPAY_API_KEY req_body : value) (s : store)
  : Res response -> Prop :=
| post_error e :
    nullish req_body = true \/
    findByPk User.id (Users s) (get req_body "userId") = inl e \/
    acceptable_request req_body = false ->
    post_spec MOONPAY_API_KEY req_body s (Ret (failed e) s)
| post_not_found :
    nullish req_body = false ->
    findByPk User.id (Users s) (get req_body "userId") = inr None ->
    post_spec MOONPAY_API_KEY req_body s (Ret user_not_found s)
| post_no_wallet user e :
    nullish req_body = false ->
    findByPk User.id (Users s) (get req_body "userId") = inr (Some user) ->
    acceptable_request req_body = true ->
    nullish (get req_body "userDetails") = true ->
    post_spec MOONPAY_API_KEY req_body s
      (Ret (failed e) (inserted (pending_record req_body s) s))
| post_call user k :
    nullish req_body = false ->
    findByPk User.id (Users s) (get req_body "userId") = inr (Some user) ->
    acceptable_request req_body = true ->
    nullish (get req_body "userDetails") = false ->
    (forall r s', k r s' = settle_create req_body s r s') ->
    post_spec MOONPAY_API_KEY req_body s
      (Await (AxiosPost (MOONPAY_BASE_URL ++ "/v1/transactions")
                (moonpayPayload user (pending_instance req_body s)
                   (get req_body "amount") (get req_body "currency")
                   (get req_body "cryptoCurrency") (get req_body "paymentMethod")
                   (get req_body "cardDetails")
                   (get (get req_body "userDetails") "walletAddress"))
                (headers_post MOONPAY_API_KEY))
             (inserted (pending_record req_body s) s) k).

(** The fetch handler, path by path. *)
Inductive get_spec (MOONPAY_API_KEY : value) (id : string) (s : store)
  : Res response -> Prop :=
| get_not_found :
    findByPk Transaction.id (Transactions s) (VStr id) = inr None ->
    get_spec MOONPAY_API_KEY id s (Ret transaction_not_found s)
| get_local t :
    findByPk Transaction.id (Transactions s) (VStr id) = inr (Some t) ->
    truthy (Transaction.moonpayTransactionId t) = false ->
    get_spec MOONPAY_API_KEY id s (Ret (res_json (Transaction.toJSON t)) s)
| get_call t k :
    findByPk Transaction.id (Transactions s) (VStr id) = inr (Some t) ->
    truthy (Transaction.moonpayTransactionId t) = true ->
    (forall r s', k r s' = settle_fetch t r s') ->
    get_spec MOONPAY_API_KEY id s
      (Await (AxiosGet (MOONPAY_BASE_URL ++ "/v1/transactions/" ++
                        toString (Transaction.moonpayTransactionId t))
                       (headers_get MOONPAY_API_KEY))
             s k).

(** The attributes no handler writes once the row is inserted. *)
Definition immutable (t t' : Transaction.t) : Prop :=
  Transaction.id t' = Transaction.id t /\
  Transaction.userId t' = Transaction.userId t /\
  Transaction.amount t' = Transaction.amount t /\
  Transaction.currency t' = Transaction.currency t /\
  Transaction.cryptoCurrency t' = Transaction.cryptoCurrency t /\
  Transaction.paymentMethod t' = Transaction.paymentMethod t /\
  Transaction.createdAt t' = Transaction.createdAt t.

(** The same, and the external identifier with them. *)
Definition frozen (t t' : Transaction.t) : Prop :=
  immutable t t' /\
  Transaction.moonpayTransactionId t' = Transaction.moonpayTransactionId t.

(** ** Sample data *)

Definition alice : User.t :=
  User.mk 1 (VStr "Alice") (VStr "Wanjiru") (VStr "alice@example.com")
          (VStr "+254712345678") (VStr "12345678").

Definition tx1 : Transaction.t :=
  Transaction.mk 1 (VNum 1) (VNum 5000) (VStr "KES") VNull (VStr "btc")
                 (VStr "waitingPayment") (VStr "mobile_money") (VStr "ext_1") 10 10.

Definition tx2 : Transaction.t :=
  Transaction.mk 2 (VNum 1) (VNum 700) (VStr "KES") VNull (VStr "eth")
                 (VStr "pending") (VStr "card_payment") VNull 20 20.

Definition store0 : store := mkStore [alice] [tx1; tx2] 3 30.

Definition api_key : value := VStr "pk_test_key".

(** The request of [test.js]. *)
Definition test_body : value :=
  VObj [("userId", VNum 1);
        ("amount", VNum 5000);
        ("currency", VStr "KES");
        ("cryptoCurrency", VStr "btc");
        ("paymentMethod", VStr "mobile_money");
        ("userDetails",
         VObj [("walletAddress", VStr "3FZbgi29cpjq2GjdwV8eyHuJJnkLtktZc5")])].

Definition card_body : value :=
  VObj [("userId", VNum 1);
        ("amount", VNum 5000);
        ("currency", VStr "KES");
        ("cryptoCurrency", VStr "btc");
        ("paymentMethod", VStr "card_payment");
        ("cardDetails",
         VObj [("cardNumber", VStr "4242424242424242");
               ("expiryMonth", VStr "12");
               ("expiryYear", VStr "2025");
               ("cvv", VStr "123");
               ("cardholderName", VStr "John Doe")]);
        ("userDetails",
         VObj [("walletAddress", VStr "3FZbgi29cpjq2GjdwV8eyHuJJnkLtktZc5")])].

(** A stub processor that accepts every creation and reports every
    transaction completed. *)
Definition accepting (c : call) : axios_result :=
  match c with
  | AxiosPost _ _ _ =>
      Fulfilled (VObj [("id", VStr "ext_1");
                       ("status", VStr "waitingPayment");
                       ("redirectUrl", VStr "https://pay/ext_1")])
  | AxiosGet _ _ =>
      Fulfilled (VObj [("status", VStr "completed"); ("cryptoAmount", VNum 12)])
  end.

(** A stub processor that refuses every call with an error body. *)
Definition refusing (c : call) : axios_result :=
  Rejected (mkError "Request failed with status code 400"
                    (Some (VObj [("message", VStr "Invalid wallet address")]))).


(** A record whose external id is the empty string: not null, and falsy. *)
Definition tx_empty : Transaction.t :=
  Transaction.mk 1 (VNum 1) (VNum 5000) (VStr "KES") VNull (VStr "btc")
                 (VStr "pending") (VStr "mobile_money") (VStr "") 10 10.

(** A creation, a fetch and a webhook, in that order. *)
Definition sample_arrivals : list arrival :=
  [ mkArrival 40 accepting (CreateTransaction test_body);
    mkArrival 50 accepting (FetchTransaction "1");
    mkArrival 60 refusing
      (Webhook (VObj [("data", VObj [("id", VStr "ext_1"); ("status", VStr "failed");
                                     ("cryptoAmount", VNull)])])) ].

(** ** The migration *)

(** The tables of a data base as [queryInterface] sees them: names and
    columns. *)
Definition schema : Type := list (string * list column).

Definition has_table (name : string) (db : schema) : bool :=
  existsb (fun t => String.eqb (fst t) name) db.

(** [await queryInterface.createTable(name, columns)]: creates the table
    unless one of that name exists. *)
Definition createTable (name : string) (columns : list column) (db : schema) : schema :=
  if has_table name db then db else (db ++ [(name, columns)])%list.

(** [await queryInterface.dropTable(name)]: drops the table of that name, if
    there is one. *)
Definition dropTable (name : string) (db : schema) : schema :=
  filter (fun t => negb (String.eqb (fst t) name)) db.

(** [up] and [down] of the migration. *)
Definition up (db : schema) : schema :=
  createTable "Transactions" Transactions_table db.

Definition down (db : schema) : schema :=
  dropTable "Transactions" db.

(** ** The test client *)

Inductive console : Type :=
| console_log (args : list value)
| console_error (args : list value).

(** [response.data] of a body the server sent.  (A member whose value is
    undefined does not reach the client; reading it gives undefined either
    way.) *)
Definition body_data (b : body) : value :=
  match b with
  | Json v => v
  | Text s => VStr s
  end.

(** What axios gives a client for a response of the server: the response
    for a status in 2xx, a rejection that carries it otherwise. *)
Definition settle (r : response) : axios_result :=
  if (200 <=? statusCode r) && (statusCode r <? 300)
  then Fulfilled (body_data (sent r))
  else Rejected (mkError ("Request failed with status code " ++ Z_toString (statusCode r))
                         (Some (body_data (sent r)))).

(** [testTransaction] of [test.js], against whatever answers the request;
    the result is what it writes to the console. *)
Definition testTransaction (server : call -> axios_result) : list console :=
  match server (AxiosPost "http://localhost:3000/api/transactions" test_body []) with
  | Fulfilled data =>
      console_log [VStr "Transaction created:"; data] ::
      (if nullish data
       then [console_error
               [VStr "Error:";
                error_details
                  (TypeError ("Cannot read properties of " ++ toString data ++
                              " (reading 'moonpayUrl')"))]]
       else [console_log [VStr "Complete payment at:"; get data "moonpayUrl"]])
  | Rejected error => [console_error [VStr "Error:"; error_details error]]
  end.

(** The server as [test.js] reaches it: the POST is served by the creation
    handler on the store [s], with [stub] for the processor. *)
Definition local_server (MOONPAY_API_KEY : value) (stub : call -> axios_result)
    (s : store) (c : call) : axios_result :=
  match c with
  | AxiosPost _ data _ =>
      match outcome (run stub (post_api_transactions MOONPAY_API_KEY data s)) with
      | inl r => settle r
      | inr e => Rejected e
      end
  | AxiosGet _ _ => Rejected (mkError "Request failed with status code 404" None)
  end.

(** * Properties *)

(** ** Values *)

Lemma value_induction (P : value -> Prop) :
  P VUndefined -> P VNull -> (forall b, P (VBool b)) -> (forall n, P (VNum n)) ->
  (forall s, P (VStr s)) ->
  (forall items, Forall P items -> P (VArr items)) ->
  (forall fields, Forall (fun m => P (snd m)) fields -> P (VObj fields)) ->
  forall v, P v.
Proof.
  intros P_undefined P_null P_bool P_num P_str P_arr P_obj.
  fix IH 1. intros [| |b|n|s|items|fields].
  - exact P_undefined.
  - exact P_null.
  - apply P_bool.
  - apply P_num.
  - apply P_str.
  - apply P_arr.
    exact ((fix all (l : list value) : Forall P l :=
              match l with
              | [] => Forall_nil P
              | x :: l' => Forall_cons x (IH x) (all l')
              end) items).
  - apply P_obj.
    exact ((fix all (l : list (string * value)) : Forall (fun m => P (snd m)) l :=
              match l with
              | [] => Forall_nil _
              | m :: l' => Forall_cons m (IH (snd m)) (all l')
              end) fields).
Qed.

Lemma value_eqb_refl v : value_eqb v v = true.
Proof.
  induction v using value_induction; cbn; try reflexivity.
  - apply Bool.eqb_reflx.
  - apply Z.eqb_refl.
  - apply String.eqb_refl.
  - induction H as [|x l Hx Hl IH]; [reflexivity|]. rewrite Hx. exact IH.
  - induction H as [|[k x] l Hx Hl IH]; [reflexivity|].
    cbn in Hx. rewrite String.eqb_refl, Hx. exact IH.
Qed.

Lemma value_eqb_eq a b : value_eqb a b = true -> a = b.
Proof.
  revert b. induction a using value_induction; intros v; destruct v; cbn;
    try discriminate; try reflexivity.
  - intros E. apply Bool.eqb_prop in E. subst. reflexivity.
  - intros E. apply Z.eqb_eq in E. subst. reflexivity.
  - intros E. apply String.eqb_eq in E. subst. reflexivity.
  - intros E. f_equal. revert items0 E.
    induction H as [|x l Hx Hl IH]; intros [|y ys] E; try discriminate; [reflexivity|].
    apply andb_prop in E as [E1 E2]. f_equal; [apply Hx; exact E1|apply IH; exact E2].
  - intros E. f_equal. revert fields0 E.
    induction H as [|[k x] l Hx Hl IH]; intros [|[k' y] ys] E; try discriminate;
      [reflexivity|].
    apply andb_prop in E as [E E3]. apply andb_prop in E as [E1 E2].
    apply String.eqb_eq in E1. cbn in Hx. apply Hx in E2. subst.
    f_equal. apply IH. exact E3.
Qed.

Lemma unchanged_merge given old : unchanged given old = true -> merge given old = old.
Proof.
  unfold unchanged. destruct given; cbn [undefined orb merge]; try reflexivity;
    intros E; apply value_eqb_eq in E; exact E.
Qed.

Lemma unchanged_merged given old : unchanged given (merge given old) = true.
Proof.
  unfold unchanged. destruct given; cbn [undefined orb merge]; try reflexivity;
    apply value_eqb_refl.
Qed.

(** ** Numerals *)

Lemma digits_of_uint u rest :
  (match rest with String c _ => is_digit c = false | EmptyString => True end) ->
  digits (NilEmpty.string_of_uint u ++ rest) = (NilEmpty.string_of_uint u, rest).
Proof.
  intros Hrest. induction u; cbn [NilEmpty.string_of_uint append digits];
    try (rewrite IHu; reflexivity).
  destruct rest as [|c rest]; [reflexivity|]. cbn. rewrite Hrest. reflexivity.
Qed.

Lemma append_empty s : (s ++ "")%string = s.
Proof. induction s; cbn; [reflexivity|]. rewrite IHs. reflexivity. Qed.

Lemma string_of_uint_nonempty u :
  u <> Decimal.Nil -> NilEmpty.string_of_uint u <> EmptyString.
Proof. destruct u; cbn; try discriminate. intros H. contradiction. Qed.

Lemma numeric_positive p : numeric (NilEmpty.string_of_uint (Pos.to_uint p)) = Some (Zpos p).
Proof.
  pose proof (DecimalPos.Unsigned.to_uint_nonnil p) as Hnn.
  pose proof (DecimalPos.Unsigned.of_to p) as Hof.
  set (u := Pos.to_uint p) in *.
  unfold numeric.
  assert (Hhead : skip_spaces (NilEmpty.string_of_uint u) = NilEmpty.string_of_uint u /\
                  sign_of (NilEmpty.string_of_uint u) = (1, NilEmpty.string_of_uint u)).
  { destruct u; split; reflexivity. }
  destruct Hhead as [-> ->].
  pose proof (digits_of_uint u EmptyString I) as Hd. rewrite append_empty in Hd.
  rewrite Hd. cbn [exponent skip_spaces String.length]. rewrite append_empty.
  destruct (NilEmpty.string_of_uint u) eqn:E.
  { exfalso. exact (string_of_uint_nonempty u Hnn E). }
  rewrite <- E. unfold digits_value. rewrite NilEmpty.usu.
  change (0 - Z.of_nat 0) with 0. change (0 <=? 0) with true. cbv iota.
  unfold Z.of_uint. rewrite Hof. cbn [Z.of_N]. f_equal. change (10 ^ 0) with 1. lia.
Qed.

Lemma Z_toString_pos p : Z_toString (Z.pos p) = NilEmpty.string_of_uint (Pos.to_uint p).
Proof.
  unfold Z_toString. cbn [Z.to_int NilZero.string_of_int]. unfold NilZero.string_of_uint.
  pose proof (DecimalPos.Unsigned.to_uint_nonnil p) as Hnn.
  destruct (Pos.to_uint p); try reflexivity. contradiction.
Qed.

Lemma Z_toString_neg p :
  Z_toString (Z.neg p) = String "-" (NilEmpty.string_of_uint (Pos.to_uint p)).
Proof.
  unfold Z_toString. cbn [Z.to_int NilZero.string_of_int]. unfold NilZero.string_of_uint.
  pose proof (DecimalPos.Unsigned.to_uint_nonnil p) as Hnn.
  destruct (Pos.to_uint p); try reflexivity. contradiction.
Qed.

Lemma numeric_Z_toString n : numeric (Z_toString n) = Some n.
Proof.
  destruct n as [|p|p].
  - reflexivity.
  - rewrite Z_toString_pos. apply numeric_positive.
  - rewrite Z_toString_neg. pose proof (numeric_positive p) as H.
    revert H. unfold numeric.
    assert (Hhead : skip_spaces (NilEmpty.string_of_uint (Pos.to_uint p)) =
                      NilEmpty.string_of_uint (Pos.to_uint p) /\
                    sign_of (NilEmpty.string_of_uint (Pos.to_uint p)) =
                      (1, NilEmpty.string_of_uint (Pos.to_uint p))).
    { destruct (Pos.to_uint p); split; reflexivity. }
    destruct Hhead as [-> ->].
    change (skip_spaces (String "-" (NilEmpty.string_of_uint (Pos.to_uint p))))
      with (String "-" (NilEmpty.string_of_uint (Pos.to_uint p))).
    cbn [sign_of]. change (Ascii.eqb "-" "-") with true. cbv iota.
    destruct (digits (NilEmpty.string_of_uint (Pos.to_uint p))) as [ip s2].
    destruct (match s2 with
              | String c rest => if Ascii.eqb c "." then digits rest else ("", s2)
              | EmptyString => ("", s2)
              end) as [fp s3].
    destruct (ip ++ fp)%string; [discriminate|].
    destruct (exponent s3) as [[e s4]|]; [|discriminate].
    destruct (skip_spaces s4); [|discriminate].
    destruct (0 <=? e - Z.of_nat (String.length fp)).
    + intros [= E']. f_equal. destruct (digits_value _ * _); cbn in *; congruence.
    + destruct (_ =? 0); [|discriminate]. intros [= E']. f_equal.
      destruct (digits_value _ / _); cbn in *; congruence.
Qed.

Lemma pk_eq_Z_toString n id : pk_eq (VStr (Z_toString n)) id = (n =? id).
Proof. unfold pk_eq. rewrite numeric_Z_toString. reflexivity.
Qed.

Lemma append_assoc (a b c : string) : ((a ++ b) ++ c)%string = (a ++ (b ++ c))%string.
Proof. induction a; cbn; [reflexivity|]. rewrite IHa. reflexivity. Qed.

(** ** Writing attributes *)

Lemma set_attr_same name r :
  Transaction.set_attr name (Transaction.get_attr name r) r = r.
Proof.
  destruct r. unfold Transaction.set_attr, Transaction.get_attr.
  repeat match goal with
         | |- context [String.eqb name ?s] => destruct (String.eqb name s)
         end; reflexivity.
Qed.

Lemma write_attr_merge values r a :
  write_attr values r a =
  Transaction.set_attr (attr_name a)
    (merge (get values (attr_name a)) (Transaction.get_attr (attr_name a) r)) r.
Proof.
  unfold write_attr, merge.
  destruct (get values (attr_name a)); try reflexivity.
  symmetry. apply set_attr_same.
Qed.

Lemma write_attrs_merge values r :
  write_attrs values r =
  Transaction.mk (Transaction.id r)
    (merge (get values "userId") (Transaction.userId r))
    (merge (get values "amount") (Transaction.amount r))
    (merge (get values "currency") (Transaction.currency r))
    (merge (get values "cryptoAmount") (Transaction.cryptoAmount r))
    (merge (get values "cryptoCurrency") (Transaction.cryptoCurrency r))
    (merge (get values "status") (Transaction.status r))
    (merge (get values "paymentMethod") (Transaction.paymentMethod r))
    (merge (get values "moonpayTransactionId") (Transaction.moonpayTransactionId r))
    (Transaction.createdAt r) (Transaction.updatedAt r).
Proof.
  unfold write_attrs, Transaction_init. cbn [fold_left].
  rewrite !write_attr_merge. destruct r. reflexivity.
Qed.

(** [update({ status, cryptoAmount })] on the instance of a row. *)
Lemma update_status_cryptoAmount t st ca s :
  Transaction_update (Transaction.toJSON t)
    (VObj [("status", st); ("cryptoAmount", ca)]) s =
  match merge_reconciled t st ca s with
  | inl e => Throw e s
  | inr (t', s') => Ret (Transaction.toJSON t') s'
  end.
Proof.
  unfold Transaction_update, merge_reconciled, unchanged, changed.
  destruct st, ca; cbn -[value_eqb];
    repeat match goal with
           | |- context [value_eqb ?a ?b] => destruct (value_eqb a b)
           end; reflexivity.
Qed.

(** [update({ moonpayTransactionId, status })] on the instance the creation
    handler holds. *)
Lemma update_moonpayTransactionId_status req_body s0 ext st s :
  Transaction_update (pending_instance req_body s0)
    (VObj [("moonpayTransactionId", ext); ("status", st)]) s =
  settled (merge_accepted req_body s0 ext st s) s.
Proof.
  unfold Transaction_update, merge_accepted, unchanged, changed.
  destruct ext, st; cbn;
    repeat match goal with
           | |- context [String.eqb ?a ?b] => destruct (String.eqb a b)
           end; reflexivity.
Qed.

Lemma create_pending req_body s :
  acceptable_request req_body = true ->
  Transaction_create
    (VObj [("userId", get req_body "userId");
           ("amount", get req_body "amount");
           ("currency", get req_body "currency");
           ("cryptoCurrency", get req_body "cryptoCurrency");
           ("status", VStr "pending");
           ("paymentMethod", get req_body "paymentMethod")]) s =
  Ret (pending_instance req_body s) (inserted (pending_record req_body s) s).
Proof.
  unfold acceptable_request, text_ok. intros H.
  apply andb_prop in H as [H Hp]. apply andb_prop in H as [Hc Hcc].
  apply negb_true_iff in Hp, Hc, Hcc.
  unfold Transaction_create. rewrite write_attrs_merge.
  cbn. rewrite Hp, Hc, Hcc. reflexivity.
Qed.

(** The message of the validation error for a creation request: one
    violation for each of the three text fields that is an array or an
    object. *)
Lemma create_refused req_body s :
  acceptable_request req_body = false ->
  exists rest,
    Transaction_create
      (VObj [("userId", get req_body "userId");
             ("amount", get req_body "amount");
             ("currency", get req_body "currency");
             ("cryptoCurrency", get req_body "cryptoCurrency");
             ("status", VStr "pending");
             ("paymentMethod", get req_body "paymentMethod")]) s =
    Throw (ValidationError (string_violation_of (first_malformed req_body) ++ rest)) s.
Proof.
  unfold acceptable_request, text_ok, Transaction_create, first_malformed. intros H. cbn.
  destruct (array_or_object (get req_body "currency")),
           (array_or_object (get req_body "cryptoCurrency")),
           (array_or_object (get req_body "paymentMethod"));
    try discriminate H; eexists; unfold joined; cbn; reflexivity.
Qed.

(** ** The handlers, path by path *)

Lemma post_api_transactions_spec key req_body s :
  post_spec key req_body s (post_api_transactions key req_body s).
Proof.
  unfold post_api_transactions, try_catch, bind, prop, User_findByPk.
  destruct (nullish req_body) eqn:Hb; [apply post_error; tauto|].
  cbn [ret bindR].
  destruct (findByPk User.id (Users s) (get req_body "userId")) as [e|[user|]] eqn:Hu;
    cbn [lift ret throw bindR catchR].
  - apply post_error. tauto.
  - destruct (acceptable_request req_body) eqn:Hok.
    + rewrite (create_pending req_body s Hok). cbn [bindR].
      destruct (nullish (get req_body "userDetails")) eqn:Hw.
      * apply (post_no_wallet key req_body s user); assumption.
      * cbn [ret bindR axios catchR].
        apply (post_call key req_body s user); try assumption.
        intros r s'.
        destruct r as [data|e]; cbn [bindR catchR settle_create]; [|reflexivity].
        destruct (nullish data); cbn [throw ret bindR catchR]; [reflexivity|].
        rewrite update_moonpayTransactionId_status.
        destruct (merge_accepted _ _ _ _ s') as [e|[t' s'']]; reflexivity.
    + destruct (create_refused req_body s Hok) as [msg ->].
      cbn [bindR catchR]. apply post_error. tauto.
  - apply post_not_found; assumption.
Qed.

Lemma get_api_transactions_id_spec key id s :
  get_spec key id s (get_api_transactions_id key id s).
Proof.
  unfold get_api_transactions_id, try_catch, bind, Transaction_findByPk.
  destruct (findByPk Transaction.id (Transactions s) (VStr id)) as [e|[t|]] eqn:Hf;
    cbn [option_map ret throw bindR catchR].
  - discriminate Hf.
  - change (get (Transaction.toJSON t) "moonpayTransactionId")
      with (Transaction.moonpayTransactionId t).
    destruct (truthy (Transaction.moonpayTransactionId t)) eqn:Ht.
    + cbn [axios bindR catchR].
      apply (get_call key id s t); try assumption.
      intros r s'. unfold prop.
      destruct r as [data|e]; cbn [bindR catchR settle_fetch]; [|reflexivity].
      destruct (nullish data); cbn [throw ret bindR catchR]; [reflexivity|].
      rewrite update_status_cryptoAmount.
      destruct (merge_reconciled _ _ _ s') as [e|[t' s'']]; reflexivity.
    + cbn [ret bindR catchR]. apply get_local; assumption.
  - apply get_not_found; assumption.
Qed.

Lemma post_api_webhook_moonpay_eq req_body s :
  post_api_webhook_moonpay req_body s =
  if nullish req_body then Ret webhook_error s
  else if nullish (get req_body "data") then Ret webhook_error s
  else if refused_key (get (get req_body "data") "id") then Ret webhook_error s
  else settle_webhook (get req_body "data") s.
Proof.
  unfold post_api_webhook_moonpay, try_catch, bind, prop.
  destruct (nullish req_body); [reflexivity|]. cbn [ret bindR].
  destruct (nullish (get req_body "data")); [reflexivity|]. cbn [ret bindR].
  unfold settle_webhook, Transaction_findOne.
  destruct (get (get req_body "data") "id") eqn:Hid; cbn [refused_key bindR catchR];
    try reflexivity;
    (destruct (find _ (Transactions s)) as [t|];
     cbn [option_map ret bindR catchR]; [|reflexivity];
     rewrite update_status_cryptoAmount;
     destruct (merge_reconciled _ _ _ s) as [e|[t' s'']]; reflexivity).
Qed.

(** ** Lists of rows *)

Lemma find_all_false {A} (f : A -> bool) (l : list A) :
  (forall x, In x l -> f x = false) -> find f l = None.
Proof.
  induction l as [|a l IH]; intros H; [reflexivity|].
  cbn. rewrite (H a (or_introl eq_refl)). apply IH.
  intros x Hx. apply H. right. exact Hx.
Qed.

Lemma unique_row (l : list Transaction.t) t r :
  NoDup (map Transaction.id l) -> In t l -> In r l ->
  Transaction.id r = Transaction.id t -> r = t.
Proof.
  induction l as [|a l IH]; intros Hnd Ht Hr Hid; [contradiction|].
  cbn in Hnd. inversion Hnd as [|x xs Hnotin Hnd']; subst.
  destruct Ht as [->|Ht], Hr as [->|Hr]; try reflexivity.
  - exfalso. apply Hnotin. rewrite <- Hid. apply in_map. exact Hr.
  - exfalso. apply Hnotin. rewrite Hid. apply in_map. exact Ht.
  - apply IH; assumption.
Qed.

Lemma rewrite_nothing (l : list Transaction.t) t :
  (forall r, In r l -> Transaction.id r = Transaction.id t -> r = t) ->
  map (fun r => if Transaction.id r =? Transaction.id t then t else r) l = l.
Proof.
  induction l as [|a l IH]; intros H; [reflexivity|].
  cbn. rewrite IH by (intros r Hr; apply H; right; exact Hr).
  destruct (Z.eqb_spec (Transaction.id a) (Transaction.id t)) as [E|E]; [|reflexivity].
  rewrite (H a (or_introl eq_refl) E). reflexivity.
Qed.

Lemma store_eta s : mkStore (Users s) (Transactions s) (next_id s) (clock s) = s.
Proof. destruct s; reflexivity. Qed.

(** ** Creating a transaction for an unknown user *)




(** ** The webhook *)

(** C5, as stated, fails: a payload that has [data] but no external id
    matches no record, yet it is not answered 200: the lookup refuses a
    missing id, and the answer is 500.  (No record is touched.) *)
Lemma webhook_without_external_id :
  get (VObj [("status", VStr "completed"); ("cryptoAmount", VNum 12)]) "id" = VUndefined /\
  (forall r, In r (Transactions store0) ->
     where_eq VUndefined (Transaction.moonpayTransactionId r) = false) /\
  post_api_webhook_moonpay
    (VObj [("data", VObj [("status", VStr "completed"); ("cryptoAmount", VNum 12)])])
    store0 =
  Ret (res_status_send 500 "Error processing webhook") store0.
Proof.
  split; [reflexivity|]. split; [|reflexivity].
  intros r [<-|[<-|[]]]; reflexivity.
Qed.

(** C5, as the handler has it.  A webhook payload whose external id is a
    string, null or an array of strings and matches no transaction record is
    dropped: the handler answers 200 [OK] and the store is left as it was
    (nothing created, nothing modified).  A payload whose external id is
    missing or is an object is answered 500 [Error processing webhook], the
    store also left as it was. *)
Theorem webhook_for_unknown_external_id req_body s :
  (external_id_like (get (get req_body "data") "id") = true ->
   (forall r, In r (Transactions s) ->
      where_eq (get (get req_body "data") "id") (Transaction.moonpayTransactionId r) = false) ->
   post_api_webhook_moonpay req_body s = Ret (res_status_send 200 "OK") s) /\
  (refused_key (get (get req_body "data") "id") = true ->
   post_api_webhook_moonpay req_body s =
   Ret (res_status_send 500 "Error processing webhook") s).
Proof.
  rewrite post_api_webhook_moonpay_eq. split.
  - intros Hid Hnone.
    destruct req_body; try discriminate Hid. cbn [nullish].
    destruct (get (VObj fields) "data"); try discriminate Hid. cbn [nullish].
    destruct (refused_key (get (VObj fields0) "id")) eqn:Hr.
    { destruct (get (VObj fields0) "id"); discriminate. }
    unfold settle_webhook. rewrite (find_all_false _ _ Hnone). reflexivity.
  - intros ->.
    destruct (nullish req_body); [reflexivity|].
    destruct (nullish (get req_body "data")); reflexivity.
Qed.

Lemma webhook_for_unknown_external_id_witness :
  post_api_webhook_moonpay
    (VObj [("data", VObj [("id", VStr "ext_404"); ("status", VStr "completed");
                          ("cryptoAmount", VNum 12)])])
    store0 =
  Ret (res_status_send 200 "OK") store0.
Proof.
  apply webhook_for_unknown_external_id.
  - reflexivity.
  - intros r [<-|[<-|[]]]; reflexivity.
Defined.

(** C10.  A webhook request whose body has no [data] object (the member is
    missing, null, a primitive or an array) is answered 500 with the text
    [Error processing webhook], and the store is left as it was. *)
Theorem webhook_without_data req_body s :
  (forall fields, get req_body "data" <> VObj fields) ->
  post_api_webhook_moonpay req_body s =
  Ret (res_status_send 500 "Error processing webhook") s.
Proof.
  intros Hdata.
  rewrite post_api_webhook_moonpay_eq.
  destruct (nullish req_body); [reflexivity|].
  destruct (get req_body "data") eqn:E; try reflexivity.
  exfalso. exact (Hdata fields eq_refl).
Qed.

Lemma webhook_without_data_witness :
  post_api_webhook_moonpay (VObj [("id", VStr "ext_1"); ("status", VStr "completed")]) store0 =
  Ret (res_status_send 500 "Error processing webhook") store0.
Proof.
  apply webhook_without_data.
  intros fields. cbn. discriminate.
Defined.

Lemma rewrite_one (l : list Transaction.t) t f :
  (forall r, In r l -> Transaction.id r = Transaction.id t -> r = t) ->
  map (fun r => if Transaction.id r =? Transaction.id t then f r else r) l =
  map (fun r => if Transaction.id r =? Transaction.id t then f t else r) l.
Proof.
  intros H. apply map_ext_in. intros r Hr.
  destruct (Z.eqb_spec (Transaction.id r) (Transaction.id t)) as [E|E]; [|reflexivity].
  rewrite (H r Hr E). reflexivity.
Qed.

Lemma declared_names name :
  In name declared ->
  name = "userId" \/ name = "amount" \/ name = "currency" \/ name = "cryptoAmount" \/
  name = "cryptoCurrency" \/ name = "status" \/ name = "paymentMethod" \/
  name = "moonpayTransactionId".
Proof.
  cbn. intros H.
  repeat (destruct H as [H|H]; [symmetry in H; tauto|]). contradiction.
Qed.

(** Case analysis on the name of a declared attribute. *)
Ltac by_attribute H :=
  destruct (declared_names _ H) as [->|[->|[->|[->|[->|[->|[->| ->]]]]]]].

(** C6, as stated, fails: the webhook for the external id of the first
    record writes the status and the cryptoAmount of that row, and also its
    [updatedAt], which goes from 10 to the time of the write, 30. *)
Lemma webhook_stamps_updatedAt :
  post_api_webhook_moonpay
    (VObj [("data", VObj [("id", VStr "ext_1"); ("status", VStr "completed");
                          ("cryptoAmount", VNum 12)])])
    store0 =
  Ret (res_status_send 200 "OK")
      (mkStore [alice]
         [Transaction.mk 1 (VNum 1) (VNum 5000) (VStr "KES") (VNum 12) (VStr "btc")
                         (VStr "completed") (VStr "mobile_money") (VStr "ext_1") 10 30;
          tx2]
         3 30) /\
  Transactions store0 = [tx1; tx2] /\
  Transaction.updatedAt tx1 = 10.
Proof. repeat split. Qed.

(** What [update({ status, cryptoAmount })] does to the row of the
    instance, in a table with a primary key. *)
Lemma merge_reconciled_row t st ca s :
  In t (Transactions s) ->
  NoDup (map Transaction.id (Transactions s)) ->
  array_or_object st = false ->
  exists t',
    merge_reconciled t st ca s =
    inr (t', mkStore (Users s)
               (map (fun r => if Transaction.id r =? Transaction.id t then t' else r)
                    (Transactions s))
               (next_id s) (clock s)) /\
    Transaction.status t' = merge st (Transaction.status t) /\
    Transaction.cryptoAmount t' = merge ca (Transaction.cryptoAmount t) /\
    Transaction.id t' = Transaction.id t /\
    Transaction.createdAt t' = Transaction.createdAt t /\
    (Transaction.updatedAt t' = Transaction.updatedAt t \/
     Transaction.updatedAt t' = clock s) /\
    (forall name, In name declared -> name <> "status" -> name <> "cryptoAmount" ->
       Transaction.get_attr name t' = Transaction.get_attr name t).
Proof.
  intros Hin Hnd Hst.
  assert (Huniq : forall r, In r (Transactions s) ->
                            Transaction.id r = Transaction.id t -> r = t).
  { intros r Hr E. exact (unique_row _ t r Hnd Hin Hr E). }
  unfold merge_reconciled. rewrite Hst.
  destruct (unchanged st (Transaction.status t) &&
            unchanged ca (Transaction.cryptoAmount t)) eqn:Hu.
  - apply andb_prop in Hu as [Hu1 Hu2].
    exists t. rewrite (rewrite_nothing _ t Huniq), store_eta.
    rewrite (unchanged_merge _ _ Hu1), (unchanged_merge _ _ Hu2).
    repeat split; try reflexivity. left. reflexivity.
  - exists (reconciled st ca (clock s) t).
    unfold rewrite_row. rewrite (rewrite_one _ t _ Huniq).
    repeat split; try reflexivity; [right; reflexivity|].
    intros name Hname Hn1 Hn2.
    by_attribute Hname;
      try reflexivity; congruence.
Qed.

(** C6, as the record store has it.  A webhook payload whose external id
    (a string, null, or an array of strings) matches a transaction record
    (the first such row, [t]):
    - when its status is a string, null or absent and its cryptoAmount a
      number, null or absent, is answered 200 [OK]; in the table the row of
      [t], and no other row, is replaced by a row [t'] that has the
      payload's status and cryptoAmount (an absent one leaves the stored
      value), whose [updatedAt] is the old one or the time of the write, and
      that agrees with [t] on the identifier, the creation time and every
      other attribute the model declares;
    - when its status is an array or an object, is answered 500
      [Error processing webhook], and the store is left as it was. *)
Theorem webhook_for_known_external_id req_body data s t :
  get req_body "data" = data ->
  external_id_like (get data "id") = true ->
  find (fun r => where_eq (get data "id") (Transaction.moonpayTransactionId r))
       (Transactions s) = Some t ->
  NoDup (map Transaction.id (Transactions s)) ->
  (status_like (get data "status") = true ->
   amount_like (get data "cryptoAmount") = true ->
   exists t',
     post_api_webhook_moonpay req_body s =
     Ret (res_status_send 200 "OK")
         (mkStore (Users s)
                  (map (fun r => if Transaction.id r =? Transaction.id t then t' else r)
                       (Transactions s))
                  (next_id s) (clock s)) /\
     (forall r, In r (Transactions s) -> Transaction.id r = Transaction.id t -> r = t) /\
     Transaction.status t' = merge (get data "status") (Transaction.status t) /\
     Transaction.cryptoAmount t' =
       merge (get data "cryptoAmount") (Transaction.cryptoAmount t) /\
     Transaction.id t' = Transaction.id t /\
     Transaction.createdAt t' = Transaction.createdAt t /\
     (Transaction.updatedAt t' = Transaction.updatedAt t \/
      Transaction.updatedAt t' = clock s) /\
     (forall name, In name declared -> name <> "status" -> name <> "cryptoAmount" ->
        Transaction.get_attr name t' = Transaction.get_attr name t)) /\
  (array_or_object (get data "status") = true ->
   post_api_webhook_moonpay req_body s =
   Ret (res_status_send 500 "Error processing webhook") s).
Proof.
  intros Hdata Hid Hfind Hnd.
  assert (Hin : In t (Transactions s)) by (apply find_some in Hfind; tauto).
  rewrite post_api_webhook_moonpay_eq, Hdata.
  destruct req_body; try (cbn in Hdata; subst data; discriminate Hid). cbn [nullish].
  destruct data; try discriminate Hid. cbn [nullish].
  destruct (refused_key (get (VObj fields0) "id")) eqn:Hr.
  { destruct (get (VObj fields0) "id"); discriminate. }
  unfold settle_webhook. rewrite Hfind. split.
  - intros Hst _.
    assert (Harr : array_or_object (get (VObj fields0) "status") = false).
    { destruct (get (VObj fields0) "status"); try discriminate Hst; reflexivity. }
    destruct (merge_reconciled_row t (get (VObj fields0) "status")
                (get (VObj fields0) "cryptoAmount") s Hin Hnd Harr)
      as (t' & -> & Hs & Hc & Hi & Hcr & Hup & Hframe).
    exists t'. split; [reflexivity|]. split.
    { intros r Hr' E. exact (unique_row _ t r Hnd Hin Hr' E). }
    repeat (split; [assumption|]). exact Hframe.
  - intros Harr. unfold merge_reconciled. rewrite Harr. reflexivity.
Qed.

Lemma webhook_for_known_external_id_witness :
  exists t',
    post_api_webhook_moonpay
      (VObj [("data", VObj [("id", VStr "ext_1"); ("status", VStr "completed");
                            ("cryptoAmount", VNum 12)])])
      store0 =
    Ret (res_status_send 200 "OK") (mkStore [alice] [t'; tx2] 3 30) /\
    Transaction.status t' = VStr "completed" /\
    Transaction.cryptoAmount t' = VNum 12 /\
    Transaction.amount t' = VNum 5000.
Proof.
  destruct (webhook_for_known_external_id
              (VObj [("data", VObj [("id", VStr "ext_1"); ("status", VStr "completed");
                                    ("cryptoAmount", VNum 12)])])
              (VObj [("id", VStr "ext_1"); ("status", VStr "completed");
                     ("cryptoAmount", VNum 12)])
              store0 tx1)
    as [Hok _].
  - reflexivity.
  - reflexivity.
  - reflexivity.
  - cbn. repeat constructor; cbn; intuition discriminate.
  - destruct (Hok eq_refl eq_refl)
      as (t' & Hrun & _ & Hst & Hca & _ & _ & _ & Hframe).
    exists t'. repeat split.
    + exact Hrun.
    + exact Hst.
    + exact Hca.
    + apply (Hframe "amount"); [cbn; tauto | discriminate | discriminate].
Defined.

(** ** Fetching a transaction *)


Lemma in_rewrite_row_inv i f s r' :
  In r' (Transactions (rewrite_row i f s)) ->
  exists r, In r (Transactions s) /\
            r' = (if Transaction.id r =? i then f r else r).
Proof.
  unfold rewrite_row. cbn. rewrite in_map_iff.
  intros (r & E & Hr). exists r. split; [exact Hr | symmetry; exact E].
Qed.

Lemma in_rewrite_row i f s r :
  In r (Transactions s) ->
  In (if Transaction.id r =? i then f r else r) (Transactions (rewrite_row i f s)).
Proof.
  intros Hr. unfold rewrite_row. cbn.
  apply (in_map (fun r => if Transaction.id r =? i then f r else r)). exact Hr.
Qed.

Lemma get_toJSON name t :
  In name declared -> get (Transaction.toJSON t) name = Transaction.get_attr name t.
Proof. intros Hname. by_attribute Hname; reflexivity. Qed.

(** C3, as the handler has it: the guard of the lookup is the truthiness of
    the stored external id.  Fetching a transaction whose external id is
    truthy (not null and not the empty string), in a table with a primary
    key, makes exactly one processor call, the lookup of that id, whatever
    the processor answers and whatever status is stored.
    - When the processor answers with a body whose status is a string, null
      or absent and whose cryptoAmount is a number, null or absent, the
      handler answers 200 with the record, in which the status and the
      cryptoAmount are those of the response (an absent one leaves the
      stored value) and every other attribute is the stored one; in the
      table the row found, and no other row, has its status and
      cryptoAmount replaced in the same way.
    - When the call is rejected, or the response has null for its data, or
      its status is an array or an object, the handler answers 500 and the
      store is left as it was. *)
Theorem fetch_reconciles key id s t stub :
  findByPk Transaction.id (Transactions s) (VStr id) = inr (Some t) ->
  truthy (Transaction.moonpayTransactionId t) = true ->
  NoDup (map Transaction.id (Transactions s)) ->
  calls_made (run stub (get_api_transactions_id key id s)) =
    [AxiosGet (MOONPAY_BASE_URL ++ "/v1/transactions/" ++
               toString (Transaction.moonpayTransactionId t))
              [("X-API-KEY", key)]] /\
  (forall data,
     stub (AxiosGet (MOONPAY_BASE_URL ++ "/v1/transactions/" ++
                     toString (Transaction.moonpayTransactionId t))
                    [("X-API-KEY", key)]) = Fulfilled data ->
     nullish data = false ->
     status_like (get data "status") = true ->
     amount_like (get data "cryptoAmount") = true ->
     exists record t',
       outcome (run stub (get_api_transactions_id key id s)) = inl (res_json record) /\
       get record "id" = VNum (Transaction.id t) /\
       get record "status" = merge (get data "status") (Transaction.status t) /\
       get record "cryptoAmount" =
         merge (get data "cryptoAmount") (Transaction.cryptoAmount t) /\
       (forall name, In name declared -> name <> "status" -> name <> "cryptoAmount" ->
          get record name = Transaction.get_attr name t) /\
       Transactions (final_store (run stub (get_api_transactions_id key id s))) =
         map (fun r => if Transaction.id r =? Transaction.id t then t' else r)
             (Transactions s) /\
       (forall r, In r (Transactions s) -> Transaction.id r = Transaction.id t -> r = t) /\
       Transaction.id t' = Transaction.id t /\
       Transaction.status t' = merge (get data "status") (Transaction.status t) /\
       Transaction.cryptoAmount t' =
         merge (get data "cryptoAmount") (Transaction.cryptoAmount t) /\
       (forall name, In name declared -> name <> "status" -> name <> "cryptoAmount" ->
          Transaction.get_attr name t' = Transaction.get_attr name t))
  /\
  ((exists e,
      stub (AxiosGet (MOONPAY_BASE_URL ++ "/v1/transactions/" ++
                      toString (Transaction.moonpayTransactionId t))
                     [("X-API-KEY", key)]) = Rejected e) \/
   (exists data,
      stub (AxiosGet (MOONPAY_BASE_URL ++ "/v1/transactions/" ++
                      toString (Transaction.moonpayTransactionId t))
                     [("X-API-KEY", key)]) = Fulfilled data /\
      (nullish data = true \/ array_or_object (get data "status") = true)) ->
   outcome (run stub (get_api_transactions_id key id s)) =
     inl (res_status_json 500 (VObj [("error", VStr "Failed to fetch transaction")])) /\
   final_store (run stub (get_api_transactions_id key id s)) = s).
Proof.
  intros Hfind Htruthy Hnd.
  assert (Hin : In t (Transactions s)).
  { unfold findByPk in Hfind. injection Hfind as Hfind.
    apply find_some in Hfind. tauto. }
  destruct (get_api_transactions_id_spec key id s) as [Hf|t0 Hf Ht|t0 k Hf Ht Hk];
    rewrite Hfind in Hf; try discriminate Hf.
  - injection Hf as <-. rewrite Htruthy in Ht. discriminate Ht.
  - injection Hf as <-. cbn [run]. rewrite Hk. unfold headers_get.
    split; [|split].
    + unfold settle_fetch.
      destruct (stub _) as [data|e]; [|reflexivity].
      destruct (nullish data); [reflexivity|].
      destruct (merge_reconciled _ _ _ s) as [e|[t' s']]; reflexivity.
    + intros data Hstub Hn Hst _. rewrite Hstub. unfold settle_fetch. rewrite Hn.
      assert (Harr : array_or_object (get data "status") = false).
      { destruct (get data "status"); try discriminate Hst; reflexivity. }
      destruct (merge_reconciled_row t (get data "status") (get data "cryptoAmount")
                  s Hin Hnd Harr)
        as (t' & -> & Hs & Hc & Hi & _ & _ & Hframe).
      exists (Transaction.toJSON t'), t'.
      cbn [run outcome final_store fst snd Transactions].
      split; [reflexivity|].
      split; [cbn; rewrite Hi; reflexivity|].
      split; [exact Hs|]. split; [exact Hc|].
      split.
      { intros name Hname Hn1 Hn2. rewrite (get_toJSON name t' Hname).
        apply Hframe; assumption. }
      split; [reflexivity|].
      split.
      { intros r Hr E. exact (unique_row _ t r Hnd Hin Hr E). }
      repeat (split; [assumption|]). exact Hframe.
    + intros [[e ->]|(data & -> & [Hn|Harr])]; unfold settle_fetch.
      * split; reflexivity.
      * rewrite Hn. split; reflexivity.
      * destruct (nullish data); [split; reflexivity|].
        unfold merge_reconciled. rewrite Harr. split; reflexivity.
Qed.

Lemma fetch_reconciles_witness :
  calls_made (run accepting (get_api_transactions_id api_key "1" store0)) =
    [AxiosGet "https://api.moonpay.com/v1/transactions/ext_1"
              [("X-API-KEY", api_key)]] /\
  exists record t',
    outcome (run accepting (get_api_transactions_id api_key "1" store0)) =
      inl (res_json record) /\
    get record "status" = VStr "completed" /\
    get record "cryptoAmount" = VNum 12 /\
    Transactions (final_store (run accepting (get_api_transactions_id api_key "1" store0))) =
      [t'; tx2] /\
    Transaction.status t' = VStr "completed" /\
    Transaction.cryptoAmount t' = VNum 12.
Proof.
  destruct (fetch_reconciles api_key "1" store0 tx1 accepting) as (Hcalls & Hok & _).
  - reflexivity.
  - reflexivity.
  - cbn. repeat constructor; cbn; intuition discriminate.
  - split; [exact Hcalls|].
    destruct (Hok (VObj [("status", VStr "completed"); ("cryptoAmount", VNum 12)]))
      as (record & t' & Hout & _ & Hst & Hca & _ & Htab & _ & _ & Hst' & Hca' & _);
      try reflexivity.
    exists record, t'. repeat split; assumption.
Defined.

(** C3, as stated, fails: the record found has a non-null external id, yet
    the handler answers with the stored record and calls the processor not
    once but never. *)
Lemma fetch_with_empty_external_id :
  findByPk Transaction.id [tx_empty] (VStr "1") = inr (Some tx_empty) /\
  Transaction.moonpayTransactionId tx_empty <> VNull /\
  run accepting (get_api_transactions_id api_key "1" (mkStore [alice] [tx_empty] 2 30)) =
  (inl (res_json (Transaction.toJSON tx_empty)), mkStore [alice] [tx_empty] 2 30, []).
Proof.
  split; [reflexivity|]. split; [discriminate|]. reflexivity.
Qed.

(** ** Creating a transaction for an existing user *)

Lemma rewrite_row_ids i f s :
  (forall r, Transaction.id (f r) = Transaction.id r) ->
  map Transaction.id (Transactions (rewrite_row i f s)) =
  map Transaction.id (Transactions s).
Proof.
  intros Hf. unfold rewrite_row. cbn. rewrite map_map. apply map_ext.
  intros r. destruct (Transaction.id r =? i); [apply Hf|reflexivity].
Qed.

(** What [update({ moonpayTransactionId, status })] gives for an id and a
    status that are not arrays or objects. *)
Lemma merge_accepted_ok req_body s0 ext st s :
  text_ok ext = true -> text_ok st = true ->
  exists t' s',
    merge_accepted req_body s0 ext st s = inr (t', s') /\
    get t' "id" = VNum (next_id s0) /\
    get t' "moonpayTransactionId" = ext /\
    get t' "status" = (if undefined st then VStr "pending" else st) /\
    (s' = s \/ s' = rewrite_row (next_id s0) (accepted ext st (clock s)) s).
Proof.
  unfold merge_accepted, unchanged, text_ok.
  destruct ext, st; try discriminate; intros _ _; cbn;
    try (destruct (String.eqb_spec s2 "pending") as [->|]);
    try (destruct (String.eqb_spec s1 "pending") as [->|]);
    do 2 eexists; (split; [reflexivity|]); repeat split; auto.
Qed.

Lemma merge_accepted_refused req_body s0 ext st s :
  text_ok ext = false \/ text_ok st = false ->
  exists msg, merge_accepted req_body s0 ext st s = inl (ValidationError msg).
Proof.
  unfold merge_accepted, text_ok.
  destruct (array_or_object st), (array_or_object ext); cbn;
    intros [H|H]; try discriminate H; eexists; reflexivity.
Qed.

(** Whatever the processor answers, the creation handler then finishes
    without another call, and with the rows it had at the resumption. *)
Lemma settle_create_finishes req_body s0 r s :
  exists resp s',
    settle_create req_body s0 r s = Ret resp s' /\
    map Transaction.id (Transactions s') = map Transaction.id (Transactions s) /\
    next_id s' = next_id s.
Proof.
  unfold settle_create. destruct r as [data|e]; [|eauto].
  destruct (nullish data); [eauto|].
  destruct (text_ok (get data "id")) eqn:Hid; [destruct (text_ok (get data "status")) eqn:Hst|].
  - destruct (merge_accepted_ok req_body s0 _ _ s Hid Hst) as (t' & s' & -> & _ & _ & _ & [->| ->]).
    + eauto.
    + do 2 eexists. split; [reflexivity|]. split; [|reflexivity].
      apply rewrite_row_ids. reflexivity.
  - destruct (merge_accepted_refused req_body s0 (get data "id") (get data "status") s)
      as [msg ->]; [right; exact Hst|eauto].
  - destruct (merge_accepted_refused req_body s0 (get data "id") (get data "status") s)
      as [msg ->]; [left; exact Hid|eauto].
Qed.

(** C2, as stated, fails: user 1 exists, yet a creation request for that
    user whose currency is an array creates no record: the record store
    refuses the array, and the answer is 500. *)
Lemma create_with_array_currency :
  findByPk User.id (Users store0) (VNum 1) = inr (Some alice) /\
  run accepting
      (post_api_transactions api_key
         (VObj [("userId", VNum 1); ("amount", VNum 5000);
                ("currency", VArr [VStr "KES"]); ("cryptoCurrency", VStr "btc");
                ("paymentMethod", VStr "mobile_money");
                ("userDetails", VObj [("walletAddress", VStr "3FZbgi29cpjq2GjdwV8eyHuJJnkLtktZc5")])])
         store0) =
  (inl (res_status_json 500
          (VObj [("error", VStr "Transaction failed");
                 ("details",
                  VStr "string violation: currency cannot be an array or an object")])),
   store0, []).
Proof. split; reflexivity. Qed.

(** C2, as the record store has it.  A creation request for an existing
    user in which none of the currency, the crypto currency and the payment
    method is an array or an object inserts exactly one transaction record,
    with status [pending] and the next identifier, and does so before the
    processor is called: either the handler finishes without a call, or it
    suspends on its call to the processor with the new row already in the
    store; whatever the processor answers (success or failure), the handler
    then finishes without creating or removing a row.  A request in which
    one of the three is an array or an object is answered 500, with the
    store left as it was and without a call. *)
Theorem create_inserts_pending_record key req_body s user :
  findByPk User.id (Users s) (get req_body "userId") = inr (Some user) ->
  (acceptable_request req_body = true ->
   exists t,
     Transaction.status t = VStr "pending" /\
     Transaction.id t = next_id s /\
     ((exists resp,
         post_api_transactions key req_body s =
         Ret resp (mkStore (Users s) (Transactions s ++ [t]) (next_id s + 1) (clock s)))
      \/
      (exists c k,
         post_api_transactions key req_body s =
         Await c (mkStore (Users s) (Transactions s ++ [t]) (next_id s + 1) (clock s)) k /\
         forall r s', exists resp s'',
           k r s' = Ret resp s'' /\
           map Transaction.id (Transactions s'') = map Transaction.id (Transactions s'))) /\
     forall stub,
       map Transaction.id
           (Transactions (final_store (run stub (post_api_transactions key req_body s)))) =
       (map Transaction.id (Transactions s) ++ [next_id s])%list) /\
  (acceptable_request req_body = false ->
   forall stub, exists resp,
     run stub (post_api_transactions key req_body s) = (inl resp, s, []) /\
     statusCode resp = 500).
Proof.
  intros Hu.
  assert (Hb : nullish req_body = false).
  { destruct req_body; try reflexivity; discriminate Hu. }
  split.
  - intros Hok.
    exists (pending_record req_body s).
    split; [reflexivity|]. split; [reflexivity|].
    destruct (post_api_transactions_spec key req_body s)
      as [e [H|[H|H]]|Hb' Hu'|user' e Hb' Hu' Hok' Hw|user' k Hb' Hu' Hok' Hw Hk].
    + congruence.
    + congruence.
    + congruence.
    + rewrite Hu in Hu'. discriminate Hu'.
    + split.
      * left. eexists. reflexivity.
      * intros stub. cbn. rewrite map_app. reflexivity.
    + split.
      * right. do 2 eexists. split; [reflexivity|].
        intros r s'. rewrite Hk.
        destruct (settle_create_finishes req_body s r s')
          as (resp & s'' & E & Hids & _).
        eauto.
      * intros stub. cbn [run]. rewrite Hk.
        match goal with |- context [settle_create ?b ?s0 ?r ?s1] =>
          destruct (settle_create_finishes b s0 r s1) as (resp & s'' & E & Hids & _)
        end.
        rewrite E. cbn. rewrite Hids. cbn. rewrite map_app. reflexivity.
  - intros Hok stub.
    unfold post_api_transactions, try_catch, bind, prop, User_findByPk.
    rewrite Hb. cbn [ret bindR]. rewrite Hu. cbn [lift ret bindR].
    destruct (create_refused req_body s Hok) as [rest ->].
    eexists. split; reflexivity.
Qed.

Lemma create_inserts_pending_record_witness :
  exists t,
    Transaction.status t = VStr "pending" /\
    Transaction.id t = 3 /\
    forall stub,
      map Transaction.id
          (Transactions (final_store (run stub (post_api_transactions api_key test_body store0)))) =
      [1; 2; 3].
Proof.
  destruct (create_inserts_pending_record api_key test_body store0 alice) as [Hok _].
  - reflexivity.
  - destruct (Hok eq_refl) as (t & Hst & Hid & _ & Hrun).
    exists t. split; [exact Hst|]. split; [exact Hid|]. exact Hrun.
Defined.

(** C1, as stated, fails: the processor accepts the creation with a
    response that has an id and no status; the handler answers 200 with a
    record whose status is not the (absent) status of the response: it is
    still [pending]. *)
Lemma create_accepted_without_status :
  get (VObj [("id", VStr "ext_9"); ("redirectUrl", VStr "https://pay/ext_9")]) "status" =
    VUndefined /\
  exists transaction,
    outcome
      (run (fun _ => Fulfilled (VObj [("id", VStr "ext_9");
                                      ("redirectUrl", VStr "https://pay/ext_9")]))
           (post_api_transactions api_key test_body store0)) =
    inl (res_json (VObj [("transaction", transaction);
                         ("moonpayUrl", VStr "https://pay/ext_9")])) /\
    get transaction "moonpayTransactionId" = VStr "ext_9" /\
    get transaction "status" = VStr "pending".
Proof.
  split; [reflexivity|]. eexists. split; [reflexivity|]. split; reflexivity.
Qed.

(** C1, as the record store has it.  A creation request that reaches the
    processor (the handler made its call [c]):
    - when the call is fulfilled with a body whose id and status are not
      arrays or objects, the handler answers 200 with a record and the
      redirect URL of the response; the record has the identifier handed
      out for the request, its external id is the id of the response, and
      its status is the status of the response when the response has one,
      [pending] when it has none;
    - when the call is fulfilled with null for its data, or with an id or a
      status that is an array or an object, the handler answers 500, and the
      table is the old table followed by the one record of this request,
      which still has status [pending] and a null external id;
    - when the call fails, the handler answers 500 and the table is, again,
      the old table followed by the one record of this request, with status
      [pending] and a null external id. *)
Theorem create_merges_processor_response key req_body s stub c :
  calls_made (run stub (post_api_transactions key req_body s)) = [c] ->
  (forall data,
     stub c = Fulfilled data ->
     nullish data = false ->
     text_ok (get data "id") = true ->
     text_ok (get data "status") = true ->
     exists transaction,
       outcome (run stub (post_api_transactions key req_body s)) =
         inl (res_json (VObj [("transaction", transaction);
                              ("moonpayUrl", get data "redirectUrl")])) /\
       get transaction "id" = VNum (next_id s) /\
       get transaction "moonpayTransactionId" = get data "id" /\
       get transaction "status" =
         (if undefined (get data "status") then VStr "pending" else get data "status"))
  /\
  ((exists e, stub c = Rejected e) \/
   (exists data,
      stub c = Fulfilled data /\
      (nullish data = true \/ text_ok (get data "id") = false \/
       text_ok (get data "status") = false)) ->
   exists resp t,
     outcome (run stub (post_api_transactions key req_body s)) = inl resp /\
     statusCode resp = 500 /\
     Transactions (final_store (run stub (post_api_transactions key req_body s))) =
       (Transactions s ++ [t])%list /\
     Transaction.id t = next_id s /\
     Transaction.status t = VStr "pending" /\
     Transaction.moonpayTransactionId t = VNull).
Proof.
  destruct (post_api_transactions_spec key req_body s)
    as [e _|Hb' Hu'|user' e Hb' Hu' Hok' Hw|user' k Hb' Hu' Hok' Hw Hk];
    try discriminate.
  cbn [run]. rewrite Hk.
  match goal with |- context [settle_create ?b ?s0 (stub ?c0) ?s1] =>
    destruct (settle_create_finishes b s0 (stub c0) s1) as (resp & s'' & E & _ & _);
    set (c1 := c0) in *
  end.
  intros Hc.
  assert (Ec : c = c1).
  { rewrite E in Hc. cbn [run calls_made snd] in Hc. congruence. }
  clear resp s'' E Hc. subst c. clearbody c1.
  split.
  - intros data Hstub Hn Hidt Hstt. rewrite Hstub. unfold settle_create. rewrite Hn.
    destruct (merge_accepted_ok req_body s (get data "id") (get data "status")
                (inserted (pending_record req_body s) s) Hidt Hstt)
      as (t' & s' & -> & Hi & Hext & Hst & _).
    exists t'. cbn [run outcome fst]. repeat split; assumption.
  - intros [[e ->]|(data & -> & H)]; unfold settle_create.
    + do 2 eexists. repeat split.
    + destruct (nullish data) eqn:Hn; [do 2 eexists; repeat split|].
      destruct (merge_accepted_refused req_body s (get data "id") (get data "status")
                  (inserted (pending_record req_body s) s)) as [msg ->].
      { destruct H as [H|H]; [discriminate H|exact H]. }
      do 2 eexists. repeat split.
Qed.

Lemma create_merges_processor_response_witness :
  (exists transaction,
     outcome (run accepting (post_api_transactions api_key test_body store0)) =
       inl (res_json (VObj [("transaction", transaction);
                            ("moonpayUrl", VStr "https://pay/ext_1")])) /\
     get transaction "moonpayTransactionId" = VStr "ext_1" /\
     get transaction "status" = VStr "waitingPayment") /\
  (exists t,
     Transactions (final_store (run refusing (post_api_transactions api_key test_body store0))) =
       [tx1; tx2; t] /\
     Transaction.status t = VStr "pending" /\
     Transaction.moonpayTransactionId t = VNull).
Proof.
  split.
  - destruct (create_merges_processor_response api_key test_body store0 accepting
                (AxiosPost "https://api.moonpay.com/v1/transactions"
                   (moonpayPayload alice (pending_instance test_body store0)
                      (VNum 5000) (VStr "KES") (VStr "btc") (VStr "mobile_money")
                      VUndefined (VStr "3FZbgi29cpjq2GjdwV8eyHuJJnkLtktZc5"))
                   (headers_post api_key)))
      as [Hok _]; try reflexivity.
    destruct (Hok (VObj [("id", VStr "ext_1");
                         ("status", VStr "waitingPayment");
                         ("redirectUrl", VStr "https://pay/ext_1")]))
      as (t' & Hout & _ & Hext & Hst); try reflexivity.
    exists t'. repeat split; assumption.
  - destruct (create_merges_processor_response api_key test_body store0 refusing
                (AxiosPost "https://api.moonpay.com/v1/transactions"
                   (moonpayPayload alice (pending_instance test_body store0)
                      (VNum 5000) (VStr "KES") (VStr "btc") (VStr "mobile_money")
                      VUndefined (VStr "3FZbgi29cpjq2GjdwV8eyHuJJnkLtktZc5"))
                   (headers_post api_key)))
      as [_ Hfail]; try reflexivity.
    destruct Hfail as (resp & t & _ & _ & Htab & _ & Hst & Hext).
    + left. eexists. reflexivity.
    + exists t. repeat split; assumption.
Defined.

(** ** The request sent to the processor *)

Lemma strict_eq_str_eq v s : strict_eq_str v s = true -> v = VStr s.
Proof.
  destruct v; try discriminate. cbn. intros H.
  apply String.eqb_eq in H. subst. reflexivity.
Qed.

(** C8.  When the creation handler calls the processor, the call is the
    creation call and its payload holds: the wallet address of the request's
    [userDetails]; the crypto currency code; the fiat amount and currency;
    the identifier of the local record just inserted, as a string, under
    [externalTransactionId]; the user's profile under [customer]; and a
    [card] member exactly when the payment method is [card_payment] and card
    details were supplied, made of the supplied card fields.  So a [card]
    member is sent only for a card payment, and none for [mobile_money]. *)
Theorem processor_request_contents key req_body s c s1 k :
  post_api_transactions key req_body s = Await c s1 k ->
  exists user t payload,
    findByPk User.id (Users s) (get req_body "userId") = inr (Some user) /\
    Transactions s1 = (Transactions s ++ [t])%list /\
    c = AxiosPost "https://api.moonpay.com/v1/transactions" payload
          [("Content-Type", VStr "application/json"); ("X-API-KEY", key)] /\
    get payload "walletAddress" = get (get req_body "userDetails") "walletAddress" /\
    get payload "currencyCode" = get req_body "cryptoCurrency" /\
    get payload "baseCurrencyAmount" = get req_body "amount" /\
    get payload "baseCurrencyCode" = get req_body "currency" /\
    get payload "externalTransactionId" = VStr (Z_toString (Transaction.id t)) /\
    get payload "customer" =
      VObj [("firstName", User.firstName user);
            ("lastName", User.lastName user);
            ("email", User.email user);
            ("phoneNumber", User.phone user);
            ("externalCustomerId", VStr (Z_toString (User.id user)))] /\
    get payload "card" =
      (if strict_eq_str (get req_body "paymentMethod") "card_payment" &&
          truthy (get req_body "cardDetails")
       then VObj [("number", get (get req_body "cardDetails") "cardNumber");
                  ("expirationMonth", get (get req_body "cardDetails") "expiryMonth");
                  ("expirationYear", get (get req_body "cardDetails") "expiryYear");
                  ("cvc", get (get req_body "cardDetails") "cvv");
                  ("cardholderName", get (get req_body "cardDetails") "cardholderName")]
       else VUndefined) /\
    (get payload "card" <> VUndefined ->
     get req_body "paymentMethod" = VStr "card_payment") /\
    (get req_body "paymentMethod" = VStr "mobile_money" ->
     get payload "card" = VUndefined).
Proof.
  intros Hrun.
  destruct (post_api_transactions_spec key req_body s)
    as [e _|Hb Hu|user e Hb Hu Hok Hw|user k' Hb Hu Hok Hw Hk];
    try discriminate Hrun.
  injection Hrun as <- <- <-.
  exists user, (pending_record req_body s).
  eexists. split; [exact Hu|]. split; [reflexivity|]. split; [reflexivity|].
  unfold moonpayPayload.
  destruct (strict_eq_str (get req_body "paymentMethod") "card_payment") eqn:Hpm;
    destruct (truthy (get req_body "cardDetails")) eqn:Hcd; cbn [andb];
    repeat (split; [reflexivity|]);
    (split; [intros H; try (exfalso; apply H; reflexivity);
             apply strict_eq_str_eq; exact Hpm
            | intros H; try reflexivity; rewrite H in Hpm; discriminate Hpm]).
Qed.

Lemma processor_request_contents_witness :
  exists payload k,
    post_api_transactions api_key card_body store0 =
      Await (AxiosPost "https://api.moonpay.com/v1/transactions" payload
               [("Content-Type", VStr "application/json"); ("X-API-KEY", api_key)])
            (mkStore [alice] [tx1; tx2; pending_record card_body store0] 4 30) k /\
    get payload "walletAddress" = VStr "3FZbgi29cpjq2GjdwV8eyHuJJnkLtktZc5" /\
    get payload "externalTransactionId" = VStr "3" /\
    get payload "card" =
      VObj [("number", VStr "4242424242424242");
            ("expirationMonth", VStr "12");
            ("expirationYear", VStr "2025");
            ("cvc", VStr "123");
            ("cardholderName", VStr "John Doe")].
Proof.
  destruct (processor_request_contents api_key card_body store0 _ _ _ eq_refl)
    as (user & t & payload & Hu & Hs1 & Hc & Hw & _ & _ & _ & Hid & _ & Hcard & _).
  injection Hc as <-.
  eexists. eexists. split; [reflexivity|].
  split; [exact Hw|]. split; [reflexivity|]. exact Hcard.
Defined.

(** ** The record store's [create] *)

Lemma merge_null v : merge v VNull = if nullish v then VNull else v.
Proof. destruct v; reflexivity. Qed.

Lemma lookup_attribute name fields rest :
  is_attribute name = true ->
  lookup name rest = VUndefined ->
  lookup name (filter (fun m => is_attribute (fst m)) fields ++ rest) = lookup name fields.
Proof.
  intros Hname Hrest. induction fields as [|[k v] fields IH]; [exact Hrest|].
  cbn [filter fst lookup]. destruct (String.eqb_spec name k) as [<-|Hk].
  - rewrite Hname. cbn. rewrite String.eqb_refl. reflexivity.
  - destruct (is_attribute k); [|exact IH].
    cbn. destruct (String.eqb_spec name k); [contradiction|exact IH].
Qed.

(** The instance [create] builds has the identifier of the row and, for
    every attribute, the value as it was given. *)
Lemma build_members values r :
  get (build values r) "id" = VNum (Transaction.id r) /\
  forall name, In name declared -> get (build values r) name = get values name.
Proof.
  split; [reflexivity|]. intros name Hname. unfold build. cbn [get app lookup].
  assert (Hattr : is_attribute name = true /\ String.eqb name "id" = false /\
                  lookup name [("updatedAt", VNum (Transaction.updatedAt r));
                               ("createdAt", VNum (Transaction.createdAt r))] = VUndefined).
  { by_attribute Hname; repeat split. }
  destruct Hattr as (Ha & -> & Hrest).
  rewrite (lookup_attribute name (members values) _ Ha Hrest).
  destruct values; reflexivity.
Qed.

(** C9, as stated, fails: a [create] without amount and without currency
    does not fail with a ValidationError; it inserts a record whose amount
    and currency are null, and returns the instance of it. *)
Lemma create_without_amount_and_currency :
  get (VObj [("userId", VNum 1); ("status", VStr "pending")]) "amount" = VUndefined /\
  get (VObj [("userId", VNum 1); ("status", VStr "pending")]) "currency" = VUndefined /\
  exists transaction,
    Transaction_create (VObj [("userId", VNum 1); ("status", VStr "pending")]) store0 =
    Ret transaction
        (mkStore [alice]
           [tx1; tx2;
            Transaction.mk 3 (VNum 1) VNull VNull VNull VNull (VStr "pending") VNull VNull 30 30]
           4 30) /\
    get transaction "id" = VNum 3.
Proof. split; [reflexivity|]. split; [reflexivity|]. eexists. split; reflexivity. Qed.

(** C9, as the model and the migration have it: no attribute of the
    transaction model is required (every declared attribute is nullable, and
    the only columns of the table that refuse null are the generated
    identifier and timestamps), so [create] does not fail for an absent
    field: it inserts a record with the next identifier in which every
    declared attribute has the given value, or null when none is given, and
    returns an instance with that identifier and the values as they were
    given.  The one ValidationError of [create] is the string violation: an
    array or an object given to a [STRING] attribute, in which case nothing
    is inserted. *)
Theorem create_requires_no_field values s :
  forallb attr_allowNull Transaction_init = true /\
  map col_name (filter (fun c => negb (col_allowNull c)) Transactions_table) =
    ["id"; "createdAt"; "updatedAt"] /\
  (string_violation values = false ->
   exists transaction r,
     Transaction_create values s =
       Ret transaction
           (mkStore (Users s) (Transactions s ++ [r]) (next_id s + 1) (clock s)) /\
     Transaction.id r = next_id s /\
     (forall name, In name declared ->
        Transaction.get_attr name r =
        (if nullish (get values name) then VNull else get values name)) /\
     get transaction "id" = VNum (next_id s) /\
     (forall name, In name declared -> get transaction name = get values name)) /\
  (string_violation values = true ->
   exists msg, Transaction_create values s = Throw (ValidationError msg) s).
Proof.
  split; [reflexivity|]. split; [reflexivity|].
  unfold string_violation, Transaction_create. rewrite write_attrs_merge.
  cbn [Transaction_init validate violation declare attr_name attr_type attr_allowNull
       negb andb is_STRING existsb orb].
  destruct (array_or_object (get values "currency")),
           (array_or_object (get values "cryptoCurrency")),
           (array_or_object (get values "status")),
           (array_or_object (get values "paymentMethod")),
           (array_or_object (get values "moonpayTransactionId"));
    cbn [orb];
    try (split; [discriminate|]; intros _; eexists; reflexivity).
  split; [|discriminate]. intros _.
  do 2 eexists. split; [reflexivity|]. split; [reflexivity|]. split.
  - intros name Hname.
    by_attribute Hname;
      cbn; apply merge_null.
  - apply build_members.
Qed.

Lemma create_requires_no_field_witness :
  exists transaction r,
    Transaction_create (VObj [("userId", VNum 1); ("status", VStr "pending")]) store0 =
      Ret transaction (mkStore [alice] [tx1; tx2; r] 4 30) /\
    Transaction.get_attr "amount" r = VNull /\
    Transaction.get_attr "currency" r = VNull.
Proof.
  destruct (create_requires_no_field (VObj [("userId", VNum 1); ("status", VStr "pending")])
              store0) as (_ & _ & Hok & _).
  destruct (Hok eq_refl) as (transaction & r & Hrun & _ & Hattr & _).
  exists transaction, r. split; [exact Hrun|]. split.
  - apply (Hattr "amount"). cbn. tauto.
  - apply (Hattr "currency"). cbn. tauto.
Defined.

(** ** What the handlers do to the table *)

Section Serving.

Variable key : value.

Lemma frozen_refl t : frozen t t.
Proof. unfold frozen, immutable. tauto. Qed.

Lemma frozen_trans t1 t2 t3 : frozen t1 t2 -> frozen t2 t3 -> frozen t1 t3.
Proof. unfold frozen, immutable. intuition congruence. Qed.

Lemma frozen_reconciled st ca now r : frozen r (reconciled st ca now r).
Proof. unfold frozen, immutable. cbn. tauto. Qed.

Create HintDb frame.
#[local] Hint Resolve frozen_refl frozen_reconciled : frame.

(** The final store of the creation handler: the store it started from, or
    that store with the pending record inserted, or the latter with the
    processor's id and status merged into the new row. *)
Lemma final_store_post req_body s stub :
  let t := pending_record req_body s in
  let s' := final_store (run stub (post_api_transactions key req_body s)) in
  s' = s \/ s' = inserted t s \/
  exists c data,
    stub c = Fulfilled data /\
    s' = rewrite_row (next_id s)
           (accepted (get data "id") (get data "status") (clock s)) (inserted t s).
Proof.
  intros t s'. subst s'.
  destruct (post_api_transactions_spec key req_body s)
    as [e _|Hb Hu|user e Hb Hu Hok Hw|user k Hb Hu Hok Hw Hk].
  - left. reflexivity.
  - left. reflexivity.
  - right. left. reflexivity.
  - cbn [run]. rewrite Hk. fold t.
    match goal with |- context [stub ?c] => destruct (stub c) as [data|e] eqn:Hstub end;
      [|right; left; reflexivity].
    unfold settle_create.
    destruct (nullish data); [right; left; reflexivity|].
    destruct (text_ok (get data "id")) eqn:Hid;
      [destruct (text_ok (get data "status")) eqn:Hst|].
    + destruct (merge_accepted_ok req_body s _ _ (inserted t s) Hid Hst)
        as (t' & s' & -> & _ & _ & _ & [->| ->]).
      * right. left. reflexivity.
      * right. right. eexists. exists data. split; [exact Hstub|]. reflexivity.
    + destruct (merge_accepted_refused req_body s (get data "id") (get data "status")
                  (inserted t s)) as [msg ->]; [right; exact Hst|].
      right. left. reflexivity.
    + destruct (merge_accepted_refused req_body s (get data "id") (get data "status")
                  (inserted t s)) as [msg ->]; [left; exact Hid|].
      right. left. reflexivity.
Qed.

(** The final store of the fetch handler and of the webhook handler: the
    store they started from, possibly with a status and a cryptoAmount
    merged into the rows of one identifier. *)
Lemma final_store_get id s stub :
  let s' := final_store (run stub (get_api_transactions_id key id s)) in
  s' = s \/ exists i st ca, s' = rewrite_row i (reconciled st ca (clock s)) s.
Proof.
  intros s'. subst s'.
  destruct (get_api_transactions_id_spec key id s) as [Hf|t Hf Ht|t k Hf Ht Hk].
  - left. reflexivity.
  - left. reflexivity.
  - cbn [run]. rewrite Hk.
    match goal with |- context [stub ?c] => destruct (stub c) as [data|e] end;
      [|left; reflexivity].
    unfold settle_fetch.
    destruct (nullish data); [left; reflexivity|].
    unfold merge_reconciled.
    destruct (array_or_object (get data "status")); [left; reflexivity|].
    destruct (unchanged _ _ && unchanged _ _); [left; reflexivity|].
    right. do 3 eexists. reflexivity.
Qed.

Lemma final_store_webhook req_body s stub :
  let s' := final_store (run stub (post_api_webhook_moonpay req_body s)) in
  s' = s \/ exists i st ca, s' = rewrite_row i (reconciled st ca (clock s)) s.
Proof.
  intros s'. subst s'. rewrite post_api_webhook_moonpay_eq.
  destruct (nullish req_body); [left; reflexivity|].
  destruct (nullish (get req_body "data")); [left; reflexivity|].
  destruct (refused_key (get (get req_body "data") "id")); [left; reflexivity|].
  unfold settle_webhook.
  destruct (find _ (Transactions s)) as [t|]; [|left; reflexivity].
  unfold merge_reconciled.
  destruct (array_or_object (get (get req_body "data") "status")); [left; reflexivity|].
  destruct (unchanged _ _ && unchanged _ _); [left; reflexivity|].
  right. do 3 eexists. reflexivity.
Qed.

(** *** The primary key is kept *)

Lemma primary_key_rewrite_row i f s :
  (forall r, Transaction.id (f r) = Transaction.id r) ->
  primary_key s -> primary_key (rewrite_row i f s).
Proof.
  intros Hf [Hnd Hlt]. split.
  - rewrite (rewrite_row_ids i f s Hf). exact Hnd.
  - unfold rewrite_row. cbn. apply Forall_forall. intros r' Hr'.
    apply in_map_iff in Hr' as (r & <- & Hr).
    rewrite Forall_forall in Hlt. specialize (Hlt r Hr).
    destruct (Transaction.id r =? i); [rewrite Hf|]; exact Hlt.
Qed.

Lemma NoDup_snoc (l : list Z) x : NoDup l -> ~ In x l -> NoDup (l ++ [x]).
Proof.
  induction l as [|a l IH]; intros Hnd Hx; cbn.
  - constructor; [tauto|constructor].
  - inversion Hnd as [|y ys Hy Hnd']; subst. constructor.
    + intros Hin. apply in_app_or in Hin as [Hin|[->|[]]]; [tauto|].
      apply Hx. left. reflexivity.
    + apply IH; [exact Hnd'|]. intros Hin. apply Hx. right. exact Hin.
Qed.

Lemma primary_key_inserted t s :
  Transaction.id t = next_id s -> primary_key s -> primary_key (inserted t s).
Proof.
  intros Hid [Hnd Hlt]. rewrite Forall_forall in Hlt. split.
  - unfold inserted. cbn. rewrite map_app. cbn. apply NoDup_snoc; [exact Hnd|].
    intros Hin. apply in_map_iff in Hin as (r & E & Hr).
    specialize (Hlt r Hr). lia.
  - unfold inserted. cbn. apply Forall_forall. intros r Hr.
    apply in_app_or in Hr as [Hr|[<-|[]]]; [specialize (Hlt r Hr)|]; lia.
Qed.

Lemma primary_key_at_time now s : primary_key s -> primary_key (at_time now s).
Proof. intros H. exact H. Qed.

(** *** One request *)

(** Serving one request keeps the primary key and, of every row present
    before, the identifier, the five request attributes, the external id and
    the creation time. *)
Lemma serve_frozen s a :
  primary_key s ->
  primary_key (serve key s a) /\
  forall t, In t (Transactions s) ->
    exists t', In t' (Transactions (serve key s a)) /\ frozen t t'.
Proof.
  intros Hpk. apply (primary_key_at_time (now a)) in Hpk.
  assert (Hrec : forall i st ca,
            primary_key (rewrite_row i (reconciled st ca (now a)) (at_time (now a) s)) /\
            forall t, In t (Transactions s) ->
              exists t', In t' (Transactions
                                  (rewrite_row i (reconciled st ca (now a)) (at_time (now a) s))) /\
                         frozen t t').
  { intros i st ca. split.
    - apply primary_key_rewrite_row; [reflexivity|exact Hpk].
    - intros t Ht.
      exists (if Transaction.id t =? i then reconciled st ca (now a) t else t). split.
      + apply (in_rewrite_row i (reconciled st ca (now a)) (at_time (now a) s) t Ht).
      + destruct (Transaction.id t =? i); auto with frame. }
  assert (Hsame : primary_key (at_time (now a) s) /\
                  forall t, In t (Transactions s) ->
                    exists t', In t' (Transactions (at_time (now a) s)) /\ frozen t t').
  { split; [exact Hpk|]. intros t Ht. exists t. split; auto with frame. }
  unfold serve, handle. destruct (req a) as [req_body|id|req_body].
  - destruct (final_store_post req_body (at_time (now a) s) (processor a))
      as [->|[->|(c & data & _ & ->)]].
    + exact Hsame.
    + split.
      * apply primary_key_inserted; [reflexivity|exact Hpk].
      * intros t Ht. exists t. split; [|apply frozen_refl].
        cbn. apply in_or_app. left. exact Ht.
    + split.
      * apply primary_key_rewrite_row; [reflexivity|].
        apply primary_key_inserted; [reflexivity|exact Hpk].
      * intros t Ht. exists t. split; [|apply frozen_refl].
        unfold rewrite_row, inserted. cbn. apply in_map_iff. exists t. split.
        -- destruct Hpk as [_ Hlt]. rewrite Forall_forall in Hlt.
           specialize (Hlt t Ht). cbn in Hlt.
           destruct (Z.eqb_spec (Transaction.id t) (next_id s)); [lia|reflexivity].
        -- apply in_or_app. left. exact Ht.
  - destruct (final_store_get id (at_time (now a) s) (processor a))
      as [->|(i & st & ca & ->)]; [exact Hsame|apply Hrec].
  - destruct (final_store_webhook req_body (at_time (now a) s) (processor a))
      as [->|(i & st & ca & ->)]; [exact Hsame|apply Hrec].
Qed.

(** *** Any number of requests *)

Lemma serve_all_frozen arrivals s :
  primary_key s ->
  primary_key (serve_all key s arrivals) /\
  forall t, In t (Transactions s) ->
    exists t', In t' (Transactions (serve_all key s arrivals)) /\ frozen t t'.
Proof.
  revert s. induction arrivals as [|a arrivals IH]; intros s Hpk.
  - split; [exact Hpk|]. intros t Ht. exists t. split; [exact Ht|apply frozen_refl].
  - cbn. destruct (serve_frozen s a Hpk) as [Hpk1 Hstep].
    destruct (IH (serve key s a) Hpk1) as [Hpk2 Hrest].
    split; [exact Hpk2|].
    intros t Ht. destruct (Hstep t Ht) as (t1 & Ht1 & F1).
    destruct (Hrest t1 Ht1) as (t2 & Ht2 & F2).
    exists t2. split; [exact Ht2|exact (frozen_trans _ _ _ F1 F2)].
Qed.

(** The record a request creates: only a creation request creates one; it
    has the attributes the handler inserted it with, and its external id is
    null unless the processor accepted the request, in which case it is the
    id of the processor's response. *)
Lemma serve_new_record s a t' :
  In t' (Transactions (serve key s a)) ->
  ~ In (Transaction.id t') (map Transaction.id (Transactions s)) ->
  exists req_body,
    req a = CreateTransaction req_body /\
    immutable (pending_record req_body (at_time (now a) s)) t' /\
    (Transaction.moonpayTransactionId t' = VNull \/
     exists c data,
       processor a c = Fulfilled data /\
       Transaction.moonpayTransactionId t' = get data "id").
Proof.
  intros Hin Hnew.
  assert (Hold : forall r, In r (Transactions s) ->
                           Transaction.id r = Transaction.id t' -> False).
  { intros r Hr E. apply Hnew. rewrite <- E. apply in_map. exact Hr. }
  assert (Hrec : forall i st ca,
            In t' (Transactions (rewrite_row i (reconciled st ca (now a)) (at_time (now a) s))) ->
            False).
  { intros i st ca H. apply in_rewrite_row_inv in H as (r & Hr & ->).
    apply (Hold r Hr). destruct (Transaction.id r =? i); reflexivity. }
  unfold serve, handle in Hin. destruct (req a) as [req_body|id|req_body].
  - exists req_body. split; [reflexivity|].
    set (s0 := at_time (now a) s) in *.
    destruct (final_store_post req_body s0 (processor a))
      as [E|[E|(c & data & Hstub & E)]]; rewrite E in Hin; clear E.
    + exfalso. exact (Hold t' Hin eq_refl).
    + cbn in Hin. apply in_app_or in Hin as [Hin|[<-|[]]].
      * exfalso. exact (Hold t' Hin eq_refl).
      * split; [unfold immutable; tauto|]. left. reflexivity.
    + apply in_rewrite_row_inv in Hin as (r & Hr & ->).
      cbn in Hr. apply in_app_or in Hr as [Hr|[<-|[]]].
      * exfalso. apply (Hold r Hr).
        destruct (Transaction.id r =? next_id s0); reflexivity.
      * change (Transaction.id (pending_record req_body s0)) with (next_id s0).
        rewrite Z.eqb_refl. split; [unfold immutable; cbn; tauto|].
        cbn. destruct (get data "id") eqn:Hid; cbn;
          try (right; exists c, data; split; [exact Hstub|symmetry; exact Hid]).
        left. reflexivity.
  - exfalso.
    destruct (final_store_get id (at_time (now a) s) (processor a))
      as [E|(i & st & ca & E)]; rewrite E in Hin.
    + exact (Hold t' Hin eq_refl).
    + exact (Hrec i st ca Hin).
  - exfalso.
    destruct (final_store_webhook req_body (at_time (now a) s) (processor a))
      as [E|(i & st & ca & E)]; rewrite E in Hin.
    + exact (Hold t' Hin eq_refl).
    + exact (Hrec i st ca Hin).
Qed.

(** ** The lifecycle of a record *)

(** C7, as stated, fails: a fetch that reconciles the first record changes
    its status and cryptoAmount, and its [updatedAt] as well (from 10 to the
    time of the request, 50). *)
Lemma fetch_stamps_updatedAt :
  serve_all api_key store0 [mkArrival 50 accepting (FetchTransaction "1")] =
  mkStore [alice]
    [Transaction.mk 1 (VNum 1) (VNum 5000) (VStr "KES") (VNum 12) (VStr "btc")
                    (VStr "completed") (VStr "mobile_money") (VStr "ext_1") 10 50;
     tx2]
    3 50 /\
  Transactions store0 = [tx1; tx2] /\
  Transaction.updatedAt tx1 = 10.
Proof. repeat split. Qed.

(** C7, as the record store has it.  Over any sequence of requests
    (creations, fetches, webhooks, each with its own time and processor
    answers) served from a store with a primary key:
    - every record present at the start is still present at the end with the
      same identifier, userId, amount, currency, cryptoCurrency,
      paymentMethod and creation time, and with the same external id: later
      requests change its status, its cryptoAmount and its [updatedAt] only;
    - a record that appears while a request is served is the record of a
      creation request; when that request ends it has the identifier,
      userId, amount, currency, cryptoCurrency, paymentMethod and creation
      time it was inserted with, and its external id is null unless the
      processor accepted the request, in which case it is the id of the
      processor's response.  With the first part, the external id of a
      record is assigned at most once, by the request that created it. *)
Theorem lifecycle_mutations s arrivals :
  primary_key s ->
  (forall t, In t (Transactions s) ->
     exists t',
       In t' (Transactions (serve_all key s arrivals)) /\
       Transaction.id t' = Transaction.id t /\
       Transaction.userId t' = Transaction.userId t /\
       Transaction.amount t' = Transaction.amount t /\
       Transaction.currency t' = Transaction.currency t /\
       Transaction.cryptoCurrency t' = Transaction.cryptoCurrency t /\
       Transaction.paymentMethod t' = Transaction.paymentMethod t /\
       Transaction.createdAt t' = Transaction.createdAt t /\
       Transaction.moonpayTransactionId t' = Transaction.moonpayTransactionId t /\
       (forall name, In name declared ->
          name <> "status" -> name <> "cryptoAmount" ->
          Transaction.get_attr name t' = Transaction.get_attr name t))
  /\
  (forall a t',
     In t' (Transactions (serve key (serve_all key s arrivals) a)) ->
     ~ In (Transaction.id t')
          (map Transaction.id (Transactions (serve_all key s arrivals))) ->
     exists req_body t0,
       req a = CreateTransaction req_body /\
       t0 = pending_record req_body (at_time (now a) (serve_all key s arrivals)) /\
       Transaction.id t' = Transaction.id t0 /\
       Transaction.userId t' = Transaction.userId t0 /\
       Transaction.amount t' = Transaction.amount t0 /\
       Transaction.currency t' = Transaction.currency t0 /\
       Transaction.cryptoCurrency t' = Transaction.cryptoCurrency t0 /\
       Transaction.paymentMethod t' = Transaction.paymentMethod t0 /\
       Transaction.createdAt t' = Transaction.createdAt t0 /\
       (Transaction.moonpayTransactionId t' = VNull \/
        exists c data,
          processor a c = Fulfilled data /\
          Transaction.moonpayTransactionId t' = get data "id")).
Proof.
  intros Hpk. destruct (serve_all_frozen arrivals s Hpk) as [_ Hframe]. split.
  - intros t Ht. destruct (Hframe t Ht) as (t' & Ht' & F).
    exists t'. split; [exact Ht'|].
    destruct F as [(Hid & Hu & Ha & Hc & Hcc & Hp & Hcr) Hext].
    repeat (split; [assumption|]).
    intros name Hname Hn1 Hn2.
    by_attribute Hname;
      cbn; congruence.
  - intros a t' Hin Hnew.
    destruct (serve_new_record _ a t' Hin Hnew) as (req_body & Hreq & Himm & Hext).
    exists req_body, (pending_record req_body (at_time (now a) (serve_all key s arrivals))).
    split; [exact Hreq|]. split; [reflexivity|].
    destruct Himm as (Hid & Hu & Ha & Hc & Hcc & Hp & Hcr).
    repeat (split; [assumption|]). exact Hext.
Qed.

End Serving.

Lemma lifecycle_mutations_witness :
  exists t',
    In t' (Transactions (serve_all api_key store0 sample_arrivals)) /\
    Transaction.id t' = 1 /\
    Transaction.amount t' = VNum 5000 /\
    Transaction.currency t' = VStr "KES" /\
    Transaction.moonpayTransactionId t' = VStr "ext_1".
Proof.
  destruct (lifecycle_mutations api_key store0 sample_arrivals) as [Hold _].
  - split.
    + cbn. repeat constructor; cbn; intuition discriminate.
    + cbn. repeat constructor; cbn; lia.
  - destruct (Hold tx1) as (t' & Hin & Hid & _ & Ha & Hc & _ & _ & _ & Hext & _).
    + cbn. tauto.
    + exists t'. repeat split; assumption.
Defined.

(** * Further properties of the handlers *)

(** ** Fetching: the other paths *)

(** X1.  Fetching a record whose external id is falsy (null, or the empty
    string) answers 200 with the stored record; the store is left as it was
    and the processor is not called. *)
Theorem fetch_without_external_id key id s t stub :
  findByPk Transaction.id (Transactions s) (VStr id) = inr (Some t) ->
  truthy (Transaction.moonpayTransactionId t) = false ->
  run stub (get_api_transactions_id key id s) =
  (inl (res_json (Transaction.toJSON t)), s, []).
Proof.
  intros Hfind Hfalsy.
  destruct (get_api_transactions_id_spec key id s) as [Hf|t0 Hf Ht|t0 k Hf Ht Hk];
    rewrite Hfind in Hf; try discriminate Hf; injection Hf as <-.
  - reflexivity.
  - rewrite Hfalsy in Ht. discriminate Ht.
Qed.

Lemma fetch_without_external_id_witness :
  run refusing (get_api_transactions_id api_key "2" store0) =
  (inl (res_json (Transaction.toJSON tx2)), store0, []).
Proof.
  apply fetch_without_external_id; reflexivity.
Defined.



(** X3.  When the processor lookup of a fetch fails, or is fulfilled with
    null (or undefined) for its data, the handler answers 500
    [{ error: 'Failed to fetch transaction' }] after that one call, and the
    store is left as it was: the stored record is not returned in its
    place. *)
Theorem fetch_when_lookup_fails key id s t stub :
  findByPk Transaction.id (Transactions s) (VStr id) = inr (Some t) ->
  truthy (Transaction.moonpayTransactionId t) = true ->
  (exists e,
     stub (AxiosGet (MOONPAY_BASE_URL ++ "/v1/transactions/" ++
                     toString (Transaction.moonpayTransactionId t))
                    [("X-API-KEY", key)]) = Rejected e) \/
  (exists data,
     stub (AxiosGet (MOONPAY_BASE_URL ++ "/v1/transactions/" ++
                     toString (Transaction.moonpayTransactionId t))
                    [("X-API-KEY", key)]) = Fulfilled data /\ nullish data = true) ->
  run stub (get_api_transactions_id key id s) =
  (inl (res_status_json 500 (VObj [("error", VStr "Failed to fetch transaction")])),
   s,
   [AxiosGet (MOONPAY_BASE_URL ++ "/v1/transactions/" ++
              toString (Transaction.moonpayTransactionId t))
             [("X-API-KEY", key)]]).
Proof.
  intros Hfind Htruthy Hstub.
  destruct (get_api_transactions_id_spec key id s) as [Hf|t0 Hf Ht|t0 k Hf Ht Hk];
    rewrite Hfind in Hf; try discriminate Hf; injection Hf as <-.
  - rewrite Htruthy in Ht. discriminate Ht.
  - cbn [run]. rewrite Hk. unfold headers_get.
    destruct Hstub as [[e ->]|(data & -> & Hn)]; unfold settle_fetch.
    + reflexivity.
    + rewrite Hn. reflexivity.
Qed.

Lemma fetch_when_lookup_fails_witness :
  run refusing (get_api_transactions_id api_key "1" store0) =
  (inl (res_status_json 500 (VObj [("error", VStr "Failed to fetch transaction")])),
   store0,
   [AxiosGet "https://api.moonpay.com/v1/transactions/ext_1" [("X-API-KEY", api_key)]]).
Proof.
  apply (fetch_when_lookup_fails api_key "1" store0 tx1 refusing).
  - reflexivity.
  - reflexivity.
  - left. eexists. reflexivity.
Defined.

(** ** How the handlers finish *)

Lemma settle_create_cases req_body s0 r s :
  (exists e, settle_create req_body s0 r s = Ret (failed e) s) \/
  (exists data t' s',
     r = Fulfilled data /\
     settle_create req_body s0 r s = Ret (created t' data) s' /\
     get t' "id" = VNum (next_id s0) /\
     get t' "moonpayTransactionId" = get data "id" /\
     (s' = s \/
      s' = rewrite_row (next_id s0)
             (accepted (get data "id") (get data "status") (clock s)) s)).
Proof.
  unfold settle_create. destruct r as [data|e]; [|left; eauto].
  destruct (nullish data); [left; eauto|].
  destruct (text_ok (get data "id")) eqn:Hid;
    [destruct (text_ok (get data "status")) eqn:Hst|].
  - destruct (merge_accepted_ok req_body s0 _ _ s Hid Hst)
      as (t' & s' & -> & Hi & Hext & _ & Hs).
    right. exists data, t', s'. repeat split; assumption.
  - destruct (merge_accepted_refused req_body s0 (get data "id") (get data "status") s)
      as [msg ->]; [right; exact Hst|left; eauto].
  - destruct (merge_accepted_refused req_body s0 (get data "id") (get data "status") s)
      as [msg ->]; [left; exact Hid|left; eauto].
Qed.

Lemma settle_fetch_cases t r s :
  settle_fetch t r s = Ret fetch_failed s \/
  (exists data t' s',
     r = Fulfilled data /\
     settle_fetch t r s = Ret (res_json (Transaction.toJSON t')) s' /\
     Transaction.id t' = Transaction.id t /\
     (In t (Transactions s) -> In t' (Transactions s')) /\
     (forall name, In name declared -> name <> "status" -> name <> "cryptoAmount" ->
        Transaction.get_attr name t' = Transaction.get_attr name t)).
Proof.
  unfold settle_fetch. destruct r as [data|e]; [|left; reflexivity].
  destruct (nullish data); [left; reflexivity|].
  unfold merge_reconciled.
  destruct (array_or_object (get data "status")); [left; reflexivity|].
  right. exists data.
  destruct (unchanged _ _ && unchanged _ _).
  - exists t, s. repeat split; auto.
  - do 2 eexists. split; [reflexivity|]. split; [reflexivity|]. split; [reflexivity|].
    split.
    + intros Hin.
      pose proof (in_rewrite_row (Transaction.id t)
                    (reconciled (get data "status") (get data "cryptoAmount") (clock s))
                    s t Hin) as H.
      rewrite Z.eqb_refl in H. exact H.
    + intros name Hname Hn1 Hn2. by_attribute Hname; try reflexivity; congruence.
Qed.

Lemma settle_webhook_cases data s :
  (exists s', settle_webhook data s = Ret webhook_ok s') \/
  settle_webhook data s = Ret webhook_error s.
Proof.
  unfold settle_webhook.
  destruct (find _ (Transactions s)) as [t|]; [|eauto].
  destruct (merge_reconciled t _ _ s) as [e|[t' s']]; eauto.
Qed.

(** X4.  Every handler answers every request: whatever the request, the
    store and the processor's behaviour, no error escapes the handler, and
    the status of the answer is 200, 404 or 500 (the webhook never answers
    404). *)
Theorem handlers_always_respond key q s stub :
  exists resp,
    outcome (run stub (handle key q s)) = inl resp /\
    (statusCode resp = 200 \/
     (statusCode resp = 404 /\ forall req_body, q <> Webhook req_body) \/
     statusCode resp = 500).
Proof.
  destruct q as [req_body|id|req_body]; cbn [handle].
  - destruct (post_api_transactions_spec key req_body s)
      as [e _|Hb Hu|user e Hb Hu Hok Hw|user k Hb Hu Hok Hw Hk].
    + eexists. split; [reflexivity|]. right. right. reflexivity.
    + eexists. split; [reflexivity|]. right. left. split; [reflexivity|discriminate].
    + eexists. split; [reflexivity|]. right. right. reflexivity.
    + cbn [run]. rewrite Hk.
      match goal with |- context [settle_create ?b ?s0 ?r ?s1] =>
        destruct (settle_create_cases b s0 r s1) as [[e E]|(data & t' & s' & _ & E & _)]
      end; rewrite E; eexists; (split; [reflexivity|]); [right; right|left]; reflexivity.
  - destruct (get_api_transactions_id_spec key id s) as [Hf|t Hf Ht|t k Hf Ht Hk].
    + eexists. split; [reflexivity|]. right. left. split; [reflexivity|discriminate].
    + eexists. split; [reflexivity|]. left. reflexivity.
    + cbn [run]. rewrite Hk.
      match goal with |- context [settle_fetch ?t ?r ?s0] =>
        destruct (settle_fetch_cases t r s0) as [E|(data & t' & s' & _ & E & _ & _)]
      end; rewrite E; eexists; (split; [reflexivity|]); [right; right|left]; reflexivity.
  - rewrite post_api_webhook_moonpay_eq.
    destruct (nullish req_body);
      [eexists; split; [reflexivity|right; right; reflexivity]|].
    destruct (nullish (get req_body "data"));
      [eexists; split; [reflexivity|right; right; reflexivity]|].
    destruct (refused_key (get (get req_body "data") "id"));
      [eexists; split; [reflexivity|right; right; reflexivity]|].
    destruct (settle_webhook_cases (get req_body "data") s) as [[s' E]|E]; rewrite E;
      eexists; (split; [reflexivity|]); [left|right; right]; reflexivity.
Qed.

(** X5.  A request makes at most one call to the processor.  A call, when
    there is one, is the creation call of a creation request or, for a fetch,
    the lookup of the external id of a stored record; either carries the API
    key in its [X-API-KEY] header.  The webhook makes none. *)
Theorem processor_calls key q s stub :
  (List.length (calls_made (run stub (handle key q s))) <= 1)%nat /\
  (forall req_body, q = Webhook req_body -> calls_made (run stub (handle key q s)) = []) /\
  (forall c, In c (calls_made (run stub (handle key q s))) ->
     (exists req_body payload,
        q = CreateTransaction req_body /\
        c = AxiosPost "https://api.moonpay.com/v1/transactions" payload
              [("Content-Type", VStr "application/json"); ("X-API-KEY", key)]) \/
     (exists id t,
        q = FetchTransaction id /\
        In t (Transactions s) /\
        c = AxiosGet ("https://api.moonpay.com/v1/transactions/" ++
                      toString (Transaction.moonpayTransactionId t))
              [("X-API-KEY", key)])).
Proof.
  destruct q as [req_body|id|req_body]; cbn [handle].
  - destruct (post_api_transactions_spec key req_body s)
      as [e _|Hb Hu|user e Hb Hu Hok Hw|user k Hb Hu Hok Hw Hk];
      try (cbn; repeat split; try lia; try discriminate; intros c []).
    cbn [run]. rewrite Hk.
    match goal with |- context [settle_create ?b ?s0 ?r ?s1] =>
      destruct (settle_create_cases b s0 r s1) as [[e E]|(data & t' & s' & _ & E & _)]
    end; rewrite E; cbn [run calls_made snd List.length];
      (split; [lia|]); (split; [discriminate|]);
      intros c [<-|[]]; left; do 2 eexists; split; reflexivity.
  - destruct (get_api_transactions_id_spec key id s) as [Hf|t Hf Ht|t k Hf Ht Hk];
      try (cbn; repeat split; try lia; try discriminate; intros c []).
    assert (Hin : In t (Transactions s)).
    { unfold findByPk in Hf. injection Hf as Hf. apply find_some in Hf. tauto. }
    cbn [run]. rewrite Hk.
    match goal with |- context [settle_fetch ?t ?r ?s0] =>
      destruct (settle_fetch_cases t r s0) as [E|(data & t' & s' & _ & E & _ & _)]
    end; rewrite E; cbn [run calls_made snd List.length];
      (split; [lia|]); (split; [discriminate|]);
      intros c [<-|[]]; right; exists id, t; repeat split; assumption.
  - assert (E : calls_made (run stub (post_api_webhook_moonpay req_body s)) = []).
    { rewrite post_api_webhook_moonpay_eq.
      destruct (nullish req_body); [reflexivity|].
      destruct (nullish (get req_body "data")); [reflexivity|].
      destruct (refused_key (get (get req_body "data") "id")); [reflexivity|].
      destruct (settle_webhook_cases (get req_body "data") s) as [[s' E]|E];
        rewrite E; reflexivity. }
    rewrite E. cbn. repeat split; try lia; try (intros c []).
Qed.

(** ** Creating: the other paths *)

(** X6.  When the processor rejects the creation call of a request for an
    existing user, the handler answers 500 with [error: 'Transaction failed']
    and, under [details], the body of the processor's error response when
    there is a truthy one, the message of the error otherwise. *)
Theorem create_when_processor_rejects key req_body s user stub e :
  nullish req_body = false ->
  findByPk User.id (Users s) (get req_body "userId") = inr (Some user) ->
  acceptable_request req_body = true ->
  nullish (get req_body "userDetails") = false ->
  (forall url payload headers, stub (AxiosPost url payload headers) = Rejected e) ->
  outcome (run stub (post_api_transactions key req_body s)) =
  inl (res_status_json 500
         (VObj [("error", VStr "Transaction failed");
                ("details",
                 match response_data e with
                 | Some d => if truthy d then d else VStr (message e)
                 | None => VStr (message e)
                 end)])).
Proof.
  intros Hb Hu Hok Hw Hstub.
  destruct (post_api_transactions_spec key req_body s)
    as [e0 [H|[H|H]]|Hb' Hu'|user' e0 Hb' Hu' Hok' Hw'|user' k Hb' Hu' Hok' Hw' Hk];
    try congruence.
  cbn [run]. rewrite Hk, Hstub. reflexivity.
Qed.

Lemma create_when_processor_rejects_witness :
  outcome (run refusing (post_api_transactions api_key test_body store0)) =
  inl (res_status_json 500
         (VObj [("error", VStr "Transaction failed");
                ("details", VObj [("message", VStr "Invalid wallet address")])])).
Proof.
  apply (create_when_processor_rejects api_key test_body store0 alice refusing
           (mkError "Request failed with status code 400"
                    (Some (VObj [("message", VStr "Invalid wallet address")]))));
    reflexivity.
Defined.

(** X7.  The creation handler answers 200 only when the processor accepted:
    a 200 means that exactly one call was made, that the processor fulfilled
    it, and that the body is the redirect URL of the processor's response
    together with a record that has the identifier handed out for this
    request and, for its external id, the id of the response; the table as
    the handler leaves it has a row with that identifier, its last. *)
Theorem create_ok_means_accepted key req_body s stub resp :
  outcome (run stub (post_api_transactions key req_body s)) = inl resp ->
  statusCode resp = 200 ->
  exists c data transaction t,
    calls_made (run stub (post_api_transactions key req_body s)) = [c] /\
    stub c = Fulfilled data /\
    sent resp = Json (VObj [("transaction", transaction);
                            ("moonpayUrl", get data "redirectUrl")]) /\
    get transaction "id" = VNum (next_id s) /\
    get transaction "moonpayTransactionId" = get data "id" /\
    map Transaction.id
        (Transactions (final_store (run stub (post_api_transactions key req_body s)))) =
      (map Transaction.id (Transactions s) ++ [Transaction.id t])%list /\
    Transaction.id t = next_id s.
Proof.
  destruct (post_api_transactions_spec key req_body s)
    as [e _|Hb Hu|user e Hb Hu Hok Hw|user k Hb Hu Hok Hw Hk];
    try (cbn; intros [= <-]; discriminate).
  cbn [run]. rewrite Hk.
  match goal with |- context [settle_create ?b ?s0 (stub ?c) ?s1] =>
    destruct (settle_create_cases b s0 (stub c) s1)
      as [[e E]|(data & t' & s' & Hstub & E & Hid & Hext & Hs)]; rewrite E
  end.
  - cbn. intros [= <-]. discriminate.
  - cbn [run outcome calls_made final_store fst snd]. intros [= <-] _.
    exists (AxiosPost (MOONPAY_BASE_URL ++ "/v1/transactions")
              (moonpayPayload user (pending_instance req_body s)
                 (get req_body "amount") (get req_body "currency")
                 (get req_body "cryptoCurrency") (get req_body "paymentMethod")
                 (get req_body "cardDetails")
                 (get (get req_body "userDetails") "walletAddress"))
              (headers_post key)),
           data, t', (pending_record req_body s).
    split; [reflexivity|]. split; [exact Hstub|].
    split; [reflexivity|]. split; [exact Hid|]. split; [exact Hext|].
    split; [|reflexivity].
    destruct Hs as [->| ->].
    + cbn. rewrite map_app. reflexivity.
    + rewrite rewrite_row_ids by reflexivity. cbn. rewrite map_app. reflexivity.
Qed.

Lemma create_ok_means_accepted_witness :
  exists c data transaction,
    calls_made (run accepting (post_api_transactions api_key test_body store0)) = [c] /\
    accepting c = Fulfilled data /\
    get data "redirectUrl" = VStr "https://pay/ext_1" /\
    get transaction "id" = VNum 3 /\
    get transaction "moonpayTransactionId" = VStr "ext_1".
Proof.
  destruct (create_ok_means_accepted api_key test_body store0 accepting
              (created (accepted_instance test_body store0 (VStr "ext_1")
                          (VStr "waitingPayment") 30)
                       (VObj [("id", VStr "ext_1");
                              ("status", VStr "waitingPayment");
                              ("redirectUrl", VStr "https://pay/ext_1")])))
    as (c & data & transaction & t & Hcalls & Hstub & Hbody & Hid & Hext & _).
  - reflexivity.
  - reflexivity.
  - exists c, data, transaction. split; [exact Hcalls|]. split; [exact Hstub|].
    injection Hcalls as <-. cbn in Hstub. injection Hstub as <-.
    split; [reflexivity|]. split; [exact Hid|exact Hext].
Defined.

(** X8.  A creation request for an existing user that has no [userDetails],
    and in which none of the currency, the crypto currency and the payment
    method is an array or an object, still inserts its pending record, and
    then fails before the processor is called: the answer is 500, the table
    is the old table followed by the new record (status [pending], external
    id null), and no call is made. *)
Theorem create_without_userDetails key req_body s user stub :
  nullish req_body = false ->
  findByPk User.id (Users s) (get req_body "userId") = inr (Some user) ->
  acceptable_request req_body = true ->
  nullish (get req_body "userDetails") = true ->
  exists resp t,
    run stub (post_api_transactions key req_body s) =
      (inl resp,
       mkStore (Users s) (Transactions s ++ [t]) (next_id s + 1) (clock s),
       []) /\
    statusCode resp = 500 /\
    Transaction.id t = next_id s /\
    Transaction.status t = VStr "pending" /\
    Transaction.moonpayTransactionId t = VNull.
Proof.
  intros Hb Hu Hok Hw.
  destruct (post_api_transactions_spec key req_body s)
    as [e0 [H|[H|H]]|Hb' Hu'|user' e0 Hb' Hu' Hok' Hw'|user' k Hb' Hu' Hok' Hw' Hk];
    try congruence.
  do 2 eexists. split; [reflexivity|]. repeat split.
Qed.

Lemma create_without_userDetails_witness :
  exists resp t,
    run accepting
        (post_api_transactions api_key
           (VObj [("userId", VNum 1); ("amount", VNum 5000); ("currency", VStr "KES")])
           store0) =
      (inl resp, mkStore [alice] [tx1; tx2; t] 4 30, []) /\
    statusCode resp = 500 /\
    Transaction.status t = VStr "pending".
Proof.
  destruct (create_without_userDetails api_key
              (VObj [("userId", VNum 1); ("amount", VNum 5000); ("currency", VStr "KES")])
              store0 alice accepting)
    as (resp & t & Hrun & Hcode & _ & Hst & _); try reflexivity.
  exists resp, t. repeat split; assumption.
Defined.

(** X9.  A creation request for an existing user in which the currency, the
    crypto currency or the payment method is an array or an object is refused
    by the record store's validation: the answer is 500 with the message of
    the validation error under [details], which begins with the violation of
    the first such field, [string violation: <field> cannot be an array or an
    object]; no record is inserted and the processor is not called. *)
Theorem create_with_malformed_text key req_body s user stub :
  nullish req_body = false ->
  findByPk User.id (Users s) (get req_body "userId") = inr (Some user) ->
  acceptable_request req_body = false ->
  exists rest,
    run stub (post_api_transactions key req_body s) =
    (inl (res_status_json 500
            (VObj [("error", VStr "Transaction failed");
                   ("details",
                    VStr ("string violation: " ++ first_malformed req_body ++
                          " cannot be an array or an object" ++ rest))])),
     s, []).
Proof.
  intros Hb Hu Hok.
  unfold post_api_transactions, try_catch, bind, prop, User_findByPk.
  rewrite Hb. cbn [ret bindR]. rewrite Hu. cbn [lift ret bindR].
  destruct (create_refused req_body s Hok) as [rest ->].
  exists rest. cbn [bindR catchR ret run]. unfold string_violation_of.
  repeat f_equal. unfold error_details, ValidationError. cbn [response_data message].
  f_equal. rewrite <- !append_assoc. reflexivity.
Qed.

Lemma create_with_malformed_text_witness :
  exists rest,
    run accepting
        (post_api_transactions api_key
           (VObj [("userId", VNum 1); ("currency", VObj [("code", VStr "KES")])])
           store0) =
    (inl (res_status_json 500
            (VObj [("error", VStr "Transaction failed");
                   ("details",
                    VStr ("string violation: currency cannot be an array or an object" ++
                          rest))])),
     store0, []).
Proof.
  apply (create_with_malformed_text api_key
           (VObj [("userId", VNum 1); ("currency", VObj [("code", VStr "KES")])])
           store0 alice accepting); reflexivity.
Defined.

(** X10.  The payload of the creation call has these members and no other:
    [walletAddress], [currencyCode], [baseCurrencyAmount], [baseCurrencyCode],
    [externalTransactionId], [customer], [paymentMethod] and, for a card
    payment with card details, [card].  Its [paymentMethod] is
    [credit_debit_card] for a card payment with card details and the
    request's own payment method otherwise; the customer has five members,
    the user's government id not among them. *)
Theorem processor_payload_members key req_body s c s1 k :
  post_api_transactions key req_body s = Await c s1 k ->
  exists url fields customer headers,
    c = AxiosPost url (VObj fields) headers /\
    map fst fields =
      (["walletAddress"; "currencyCode"; "baseCurrencyAmount"; "baseCurrencyCode";
        "externalTransactionId"; "customer"; "paymentMethod"] ++
       (if strict_eq_str (get req_body "paymentMethod") "card_payment" &&
           truthy (get req_body "cardDetails")
        then ["card"] else []))%list /\
    lookup "paymentMethod" fields =
      (if strict_eq_str (get req_body "paymentMethod") "card_payment" &&
          truthy (get req_body "cardDetails")
       then VStr "credit_debit_card" else get req_body "paymentMethod") /\
    lookup "customer" fields = VObj customer /\
    map fst customer =
      ["firstName"; "lastName"; "email"; "phoneNumber"; "externalCustomerId"].
Proof.
  intros Hrun.
  destruct (post_api_transactions_spec key req_body s)
    as [e _|Hb Hu|user e Hb Hu Hok Hw|user k' Hb Hu Hok Hw Hk];
    try discriminate Hrun.
  injection Hrun as <- <- <-.
  unfold moonpayPayload.
  destruct (strict_eq_str (get req_body "paymentMethod") "card_payment" &&
            truthy (get req_body "cardDetails"));
    do 4 eexists; repeat split.
Qed.

Lemma processor_payload_members_witness :
  exists url fields headers,
    (exists s1 k,
       post_api_transactions api_key card_body store0 =
       Await (AxiosPost url (VObj fields) headers) s1 k) /\
    map fst fields =
      ["walletAddress"; "currencyCode"; "baseCurrencyAmount"; "baseCurrencyCode";
       "externalTransactionId"; "customer"; "paymentMethod"; "card"] /\
    lookup "paymentMethod" fields = VStr "credit_debit_card".
Proof.
  destruct (processor_payload_members api_key card_body store0 _ _ _ eq_refl)
    as (url & fields & customer & headers & Hc & Hnames & Hpm & _).
  exists url, fields, headers. split; [|split; [exact Hnames|exact Hpm]].
  do 2 eexists. rewrite <- Hc. reflexivity.
Defined.

(** ** The table over time *)

Lemma serve_grows key s a :
  Users (serve key s a) = Users s /\
  ((map Transaction.id (Transactions (serve key s a)) = map Transaction.id (Transactions s) /\
    next_id (serve key s a) = next_id s) \/
   (map Transaction.id (Transactions (serve key s a)) =
      (map Transaction.id (Transactions s) ++ [next_id s])%list /\
    next_id (serve key s a) = next_id s + 1)).
Proof.
  assert (Hrec : forall i st ca s0,
            map Transaction.id (Transactions (rewrite_row i (reconciled st ca (clock s0)) s0)) =
            map Transaction.id (Transactions s0)).
  { intros. apply rewrite_row_ids. reflexivity. }
  unfold serve, handle. destruct (req a) as [req_body|id|req_body].
  - destruct (final_store_post key req_body (at_time (now a) s) (processor a))
      as [->|[->|(c & data & _ & ->)]].
    + split; [reflexivity|]. left. split; reflexivity.
    + split; [reflexivity|]. right. cbn. rewrite map_app. split; reflexivity.
    + split; [reflexivity|]. right. rewrite rewrite_row_ids by reflexivity.
      cbn. rewrite map_app. split; reflexivity.
  - destruct (final_store_get key id (at_time (now a) s) (processor a))
      as [->|(i & st & ca & ->)].
    + split; [reflexivity|]. left. split; reflexivity.
    + split; [reflexivity|]. left. rewrite Hrec. split; reflexivity.
  - destruct (final_store_webhook req_body (at_time (now a) s) (processor a))
      as [->|(i & st & ca & ->)].
    + split; [reflexivity|]. left. split; reflexivity.
    + split; [reflexivity|]. left. rewrite Hrec. split; reflexivity.
Qed.

(** X11.  No request removes a row, reorders the table or touches the users:
    after any sequence of requests the identifiers of the table are those it
    started with, in the same order, followed by the identifiers of the rows
    created since, which are consecutive from the counter; the counter has
    advanced by their number. *)
Theorem table_only_grows key s arrivals :
  exists n,
    map Transaction.id (Transactions (serve_all key s arrivals)) =
      (map Transaction.id (Transactions s) ++
       map (fun i => next_id s + Z.of_nat i) (seq 0 n))%list /\
    next_id (serve_all key s arrivals) = next_id s + Z.of_nat n /\
    (n <= List.length arrivals)%nat /\
    Users (serve_all key s arrivals) = Users s.
Proof.
  revert s. induction arrivals as [|a arrivals IH]; intros s.
  - exists 0%nat. cbn. rewrite app_nil_r. repeat split; lia.
  - cbn [serve_all fold_left]. fold (serve_all key (serve key s a) arrivals).
    destruct (IH (serve key s a)) as (n & Hids & Hnext & Hlen & Husers).
    destruct (serve_grows key s a) as [Hu [[Hi Hn]|[Hi Hn]]].
    + exists n. rewrite Hids, Hnext, Husers, Hi, Hn, Hu. cbn [List.length].
      repeat split; lia.
    + exists (S n). rewrite Hids, Hnext, Husers, Hi, Hn, Hu. cbn [List.length].
      repeat split; try lia.
      rewrite <- app_assoc. f_equal. cbn [seq map app].
      rewrite Z.add_0_r. f_equal.
      rewrite <- seq_shift, map_map. apply map_ext. intros i. lia.
Qed.

(** X12.  The primary key of the transaction table is an invariant: when
    the identifiers of the table are distinct and below the auto-increment
    counter, they still are after any sequence of requests. *)
Theorem primary_key_is_kept key s arrivals :
  primary_key s -> primary_key (serve_all key s arrivals).
Proof.
  intros Hpk. apply (serve_all_frozen key arrivals s Hpk).
Qed.

Lemma primary_key_is_kept_witness :
  primary_key (serve_all api_key store0 sample_arrivals).
Proof.
  apply primary_key_is_kept. split.
  - cbn. repeat constructor; cbn; intuition discriminate.
  - cbn. repeat constructor; cbn; lia.
Defined.

(** ** The webhook, again *)

Lemma find_rewritten (p : value -> bool) (g : Transaction.t -> Transaction.t) l :
  (forall r, Transaction.moonpayTransactionId (g r) = Transaction.moonpayTransactionId r) ->
  find (fun r => p (Transaction.moonpayTransactionId r)) (map g l) =
  option_map g (find (fun r => p (Transaction.moonpayTransactionId r)) l).
Proof.
  intros Hg. induction l as [|a l IH]; [reflexivity|].
  cbn. rewrite Hg. destruct (p (Transaction.moonpayTransactionId a)); [reflexivity|exact IH].
Qed.

(** X13.  The webhook is idempotent: delivering the same payload a second
    time, at any later time, to the store the first delivery left, gives the
    same answer and changes nothing in the table but the [updatedAt] of the
    rows it writes again (two rows are compared with their [updatedAt] set
    to 0). *)
Theorem webhook_is_idempotent req_body s resp s1 later :
  post_api_webhook_moonpay req_body s = Ret resp s1 ->
  exists s2,
    post_api_webhook_moonpay req_body (at_time later s1) = Ret resp s2 /\
    Users s2 = Users s1 /\
    next_id s2 = next_id s1 /\
    Forall2 (fun r r' => Transaction.touch 0 r' = Transaction.touch 0 r)
            (Transactions s1) (Transactions s2).
Proof.
  assert (Hsame : forall l : list Transaction.t,
            Forall2 (fun r r' => Transaction.touch 0 r' = Transaction.touch 0 r) l l).
  { intros l. induction l; constructor; auto. }
  rewrite !post_api_webhook_moonpay_eq.
  destruct (nullish req_body);
    [intros [= <- <-]; eexists; split; [reflexivity|]; repeat split; apply Hsame|].
  destruct (nullish (get req_body "data"));
    [intros [= <- <-]; eexists; split; [reflexivity|]; repeat split; apply Hsame|].
  destruct (refused_key (get (get req_body "data") "id"));
    [intros [= <- <-]; eexists; split; [reflexivity|]; repeat split; apply Hsame|].
  set (data := get req_body "data").
  unfold settle_webhook. cbn [at_time Transactions].
  destruct (find _ (Transactions s)) as [t|] eqn:Hfind.
  - unfold merge_reconciled at 1.
    destruct (array_or_object (get data "status")) eqn:Harr.
    { intros [= <- <-]. rewrite Hfind. unfold merge_reconciled. rewrite Harr.
      eexists; split; [reflexivity|]; repeat split; apply Hsame. }
    destruct (unchanged (get data "status") (Transaction.status t) &&
              unchanged (get data "cryptoAmount") (Transaction.cryptoAmount t)) eqn:Hun.
    { intros [= <- <-]. rewrite Hfind. unfold merge_reconciled. rewrite Harr, Hun.
      eexists; split; [reflexivity|]; repeat split; apply Hsame. }
    intros [= <- <-].
    set (f := reconciled (get data "status") (get data "cryptoAmount") (clock s)).
    unfold rewrite_row at 1. cbn [Transactions].
    rewrite (find_rewritten (where_eq (get data "id"))
               (fun r => if Transaction.id r =? Transaction.id t then f r else r)).
    + rewrite Hfind. cbn [option_map]. rewrite Z.eqb_refl.
      unfold merge_reconciled. rewrite Harr.
      change (Transaction.status (f t))
        with (merge (get data "status") (Transaction.status t)).
      change (Transaction.cryptoAmount (f t))
        with (merge (get data "cryptoAmount") (Transaction.cryptoAmount t)).
      rewrite !unchanged_merged. cbn [andb].
      eexists. split; [reflexivity|]. repeat split. apply Hsame.
    + intros r. destruct (Transaction.id r =? Transaction.id t); reflexivity.
  - intros [= <- <-]. rewrite Hfind.
    eexists; split; [reflexivity|]; repeat split; apply Hsame.
Qed.

Lemma webhook_is_idempotent_witness :
  exists s2,
    post_api_webhook_moonpay
      (VObj [("data", VObj [("id", VStr "ext_1"); ("status", VStr "completed");
                            ("cryptoAmount", VNum 12)])])
      (mkStore [alice]
         [Transaction.mk 1 (VNum 1) (VNum 5000) (VStr "KES") (VNum 12) (VStr "btc")
                         (VStr "completed") (VStr "mobile_money") (VStr "ext_1") 10 30;
          tx2]
         3 75) =
    Ret (res_status_send 200 "OK") s2 /\
    next_id s2 = 3.
Proof.
  destruct (webhook_is_idempotent
              (VObj [("data", VObj [("id", VStr "ext_1"); ("status", VStr "completed");
                                    ("cryptoAmount", VNum 12)])])
              store0 _ _ 75 eq_refl) as (s2 & Hrun & _ & Hnext & _).
  exists s2. split; [exact Hrun|exact Hnext].
Defined.

Lemma find_first {A} (f : A -> bool) l x :
  find f l = Some x ->
  exists before after,
    l = (before ++ x :: after)%list /\ forall y, In y before -> f y = false.
Proof.
  induction l as [|a l IH]; [discriminate|]. cbn.
  destruct (f a) eqn:Ha.
  - intros [= ->]. exists [], l. split; [reflexivity|]. intros y [].
  - intros H. destruct (IH H) as (before & after & -> & Hb).
    exists (a :: before), after. split; [reflexivity|].
    intros y [<-|Hy]; [exact Ha|apply Hb; exact Hy].
Qed.

(** X14.  The webhook's lookup treats a null id as a value to match: when
    some record has no external id (it was never accepted by the processor),
    a payload whose [id] is null and whose status is a string is applied to
    the first record of the table that has no external id, which takes the
    payload's status. *)
Theorem webhook_with_null_id req_body data st s t :
  get req_body "data" = data ->
  get data "id" = VNull ->
  get data "status" = VStr st ->
  In t (Transactions s) ->
  Transaction.moonpayTransactionId t = VNull ->
  exists before t0 after t0' s',
    Transactions s = (before ++ t0 :: after)%list /\
    (forall r, In r before -> Transaction.moonpayTransactionId r <> VNull) /\
    Transaction.moonpayTransactionId t0 = VNull /\
    post_api_webhook_moonpay req_body s = Ret (res_status_send 200 "OK") s' /\
    In t0' (Transactions s') /\
    Transaction.id t0' = Transaction.id t0 /\
    Transaction.status t0' = VStr st.
Proof.
  intros Hdata Hid Hst Hin Hext.
  rewrite post_api_webhook_moonpay_eq, Hdata.
  destruct req_body; try (cbn in Hdata; subst data; discriminate Hid). cbn [nullish].
  destruct data; try discriminate Hid. cbn [nullish].
  rewrite Hid. cbn [refused_key]. unfold settle_webhook. rewrite Hid.
  destruct (find (fun r => where_eq VNull (Transaction.moonpayTransactionId r))
                 (Transactions s)) as [t0|] eqn:Hfind.
  - destruct (find_first _ _ _ Hfind) as (before & after & Htab & Hbefore).
    apply find_some in Hfind as [Hin0 Hm].
    assert (Hext0 : Transaction.moonpayTransactionId t0 = VNull).
    { destruct (Transaction.moonpayTransactionId t0); try discriminate Hm. reflexivity. }
    exists before, t0, after.
    unfold merge_reconciled. rewrite Hst. cbn [array_or_object].
    destruct (unchanged (VStr st) (Transaction.status t0) &&
              unchanged (get (VObj fields0) "cryptoAmount") (Transaction.cryptoAmount t0))
      eqn:Hun.
    + apply andb_prop in Hun as [Hun _]. apply unchanged_merge in Hun. cbn in Hun.
      exists t0, s. split; [exact Htab|]. split.
      { intros r Hr E. specialize (Hbefore r Hr). cbn in Hbefore.
        rewrite E in Hbefore. discriminate Hbefore. }
      repeat split; auto.
    + set (f := reconciled (VStr st) (get (VObj fields0) "cryptoAmount") (clock s)).
      exists (f t0). eexists. split; [exact Htab|]. split.
      { intros r Hr E. specialize (Hbefore r Hr). cbn in Hbefore.
        rewrite E in Hbefore. discriminate Hbefore. }
      split; [exact Hext0|]. split; [reflexivity|]. split.
      * pose proof (in_rewrite_row (Transaction.id t0) f s t0 Hin0) as H.
        rewrite Z.eqb_refl in H. exact H.
      * split; reflexivity.
  - exfalso. pose proof (find_none _ _ Hfind t Hin) as H. cbn in H.
    rewrite Hext in H. discriminate H.
Qed.

Lemma webhook_with_null_id_witness :
  exists before t0 after t0' s',
    Transactions store0 = (before ++ t0 :: after)%list /\
    (forall r, In r before -> Transaction.moonpayTransactionId r <> VNull) /\
    Transaction.moonpayTransactionId t0 = VNull /\
    post_api_webhook_moonpay
      (VObj [("data", VObj [("id", VNull); ("status", VStr "completed")])]) store0 =
      Ret (res_status_send 200 "OK") s' /\
    In t0' (Transactions s') /\
    Transaction.id t0' = Transaction.id t0 /\
    Transaction.status t0' = VStr "completed".
Proof.
  apply (webhook_with_null_id _ (VObj [("id", VNull); ("status", VStr "completed")])
           "completed" store0 tx2); try reflexivity.
  cbn. tauto.
Defined.

(** ** Identifiers as strings *)

Lemma find_last {A} (f : A -> bool) l x :
  (forall y, In y l -> f y = false) -> f x = true -> find f (l ++ [x]) = Some x.
Proof.
  intros Hl Hx. induction l as [|a l IH]; cbn.
  - rewrite Hx. reflexivity.
  - rewrite (Hl a (or_introl eq_refl)). apply IH. intros y Hy. apply Hl. right. exact Hy.
Qed.

Lemma pk_of_new_row (l : list Transaction.t) next param :
  Forall (fun r => Transaction.id r < next) l ->
  param = VNum next \/ param = VStr (Z_toString next) ->
  forall r, In r l -> pk_eq param (Transaction.id r) = false.
Proof.
  intros Hlt Hp r Hr. rewrite Forall_forall in Hlt. specialize (Hlt r Hr).
  destruct Hp as [-> | ->]; [cbn|rewrite pk_eq_Z_toString]; apply Z.eqb_neq; lia.
Qed.

(** X15.  Insert and look up: the row [create] inserts is the one
    [findByPk] finds afterwards under the identifier of the instance
    [create] returned, given as a number or as the decimal string of a path
    parameter (in a table whose identifiers are below the auto-increment
    counter).  The two instances differ: where the returned one has no
    value for an attribute, the one found has null. *)
Theorem create_then_findByPk values s transaction s' :
  primary_key s ->
  Transaction_create values s = Ret transaction s' ->
  exists r,
    Transactions s' = (Transactions s ++ [r])%list /\
    get transaction "id" = VNum (Transaction.id r) /\
    Transaction_findByPk (get transaction "id") s' =
      Ret (Some (Transaction.toJSON r)) s' /\
    Transaction_findByPk (VStr (toString (get transaction "id"))) s' =
      Ret (Some (Transaction.toJSON r)) s' /\
    forall name, In name declared ->
      nullish (get transaction name) = true ->
      get (Transaction.toJSON r) name = VNull.
Proof.
  intros [_ Hlt] Hc. unfold Transaction_create in Hc.
  destruct (validate Transaction_init values); [|discriminate Hc].
  injection Hc as <- <-.
  set (r := write_attrs values (blank (next_id s) (clock s))).
  assert (Hid : Transaction.id r = next_id s).
  { unfold r. rewrite write_attrs_merge. reflexivity. }
  destruct (build_members values r) as [Hbid Hbattr].
  exists r. split; [reflexivity|]. split; [exact Hbid|].
  rewrite Hbid. cbn [toString].
  unfold Transaction_findByPk, findByPk. cbn [Transactions].
  split; [|split].
  - rewrite find_last; [reflexivity| |].
    + apply (pk_of_new_row _ (next_id s)); [exact Hlt|left; rewrite Hid; reflexivity].
    + cbn. apply Z.eqb_refl.
  - rewrite find_last; [reflexivity| |].
    + apply (pk_of_new_row _ (next_id s)); [exact Hlt|right; rewrite Hid; reflexivity].
    + rewrite pk_eq_Z_toString. apply Z.eqb_refl.
  - intros name Hname. rewrite (Hbattr name Hname). intros Hnull.
    rewrite (get_toJSON name r Hname). unfold r. rewrite write_attrs_merge.
    by_attribute Hname; cbn in *; rewrite merge_null, Hnull; reflexivity.
Qed.

Lemma create_then_findByPk_witness :
  exists transaction s' r,
    Transaction_create (VObj [("userId", VNum 1); ("amount", VNum 250)]) store0 =
      Ret transaction s' /\
    Transaction_findByPk (VStr "3") s' = Ret (Some (Transaction.toJSON r)) s' /\
    get transaction "currency" = VUndefined /\
    get (Transaction.toJSON r) "currency" = VNull.
Proof.
  destruct (Transaction_create (VObj [("userId", VNum 1); ("amount", VNum 250)]) store0)
    as [transaction s'| |] eqn:E; try discriminate E.
  assert (Hpk : primary_key store0).
  { split; cbn; repeat constructor; cbn; try lia; intuition discriminate. }
  destruct (create_then_findByPk _ store0 transaction s' Hpk E) as (r & _ & _ & _ & H & Hattr).
  exists transaction, s', r. split; [reflexivity|].
  injection E as <- <-. split; [exact H|]. split; [reflexivity|].
  exact (Hattr "currency" (or_intror (or_intror (or_introl eq_refl))) eq_refl).
Defined.

(** ** Requests one after the other *)

Lemma post_rejected_store key req_body s user stub e :
  nullish req_body = false ->
  findByPk User.id (Users s) (get req_body "userId") = inr (Some user) ->
  acceptable_request req_body = true ->
  (forall url payload headers, stub (AxiosPost url payload headers) = Rejected e) ->
  final_store (run stub (post_api_transactions key req_body s)) =
  inserted (pending_record req_body s) s.
Proof.
  intros Hb Hu Hok Hstub.
  destruct (post_api_transactions_spec key req_body s)
    as [e0 [H|[H|H]]|Hb' Hu'|user' e0 Hb' Hu' Hok' Hw'|user' k Hb' Hu' Hok' Hw' Hk];
    try congruence.
  - reflexivity.
  - cbn [run]. rewrite Hk, Hstub. reflexivity.
Qed.

Lemma post_accepted_store key req_body s user stub data :
  nullish req_body = false ->
  findByPk User.id (Users s) (get req_body "userId") = inr (Some user) ->
  acceptable_request req_body = true ->
  nullish (get req_body "userDetails") = false ->
  (forall url payload headers, stub (AxiosPost url payload headers) = Fulfilled data) ->
  undefined (get data "id") = false ->
  text_ok (get data "id") = true ->
  text_ok (get data "status") = true ->
  final_store (run stub (post_api_transactions key req_body s)) =
  rewrite_row (next_id s) (accepted (get data "id") (get data "status") (clock s))
              (inserted (pending_record req_body s) s).
Proof.
  intros Hb Hu Hok Hw Hstub Hid Hidt Hstt.
  destruct (post_api_transactions_spec key req_body s)
    as [e0 [H|[H|H]]|Hb' Hu'|user' e0 Hb' Hu' Hok' Hw'|user' k Hb' Hu' Hok' Hw' Hk];
    try congruence.
  cbn [run]. rewrite Hk, Hstub. unfold settle_create.
  destruct (nullish data) eqn:Hn; [destruct data; discriminate|].
  unfold merge_accepted, text_ok in *. apply negb_true_iff in Hidt, Hstt.
  rewrite Hidt, Hstt, Hid. cbn [app]. rewrite andb_false_r. reflexivity.
Qed.

Lemma new_row_rewritten f t s :
  Forall (fun r => Transaction.id r < next_id s) (Transactions s) ->
  Transaction.id t = next_id s ->
  Transactions (rewrite_row (next_id s) f (inserted t s)) =
  (Transactions s ++ [f t])%list.
Proof.
  intros Hlt Hid. unfold rewrite_row, inserted. cbn [Transactions].
  rewrite map_app. cbn [map]. rewrite Hid, Z.eqb_refl. f_equal.
  rewrite <- (map_id (Transactions s)) at 2. apply map_ext_in.
  intros r Hr. rewrite Forall_forall in Hlt. specialize (Hlt r Hr).
  destruct (Z.eqb_spec (Transaction.id r) (next_id s)); [lia|reflexivity].
Qed.

Lemma fetch_calls key id s t stub :
  findByPk Transaction.id (Transactions s) (VStr id) = inr (Some t) ->
  truthy (Transaction.moonpayTransactionId t) = true ->
  calls_made (run stub (get_api_transactions_id key id s)) =
  [AxiosGet (MOONPAY_BASE_URL ++ "/v1/transactions/" ++
             toString (Transaction.moonpayTransactionId t))
            (headers_get key)].
Proof.
  intros Hfind Htruthy.
  destruct (get_api_transactions_id_spec key id s) as [Hf|t0 Hf Ht|t0 k Hf Ht Hk];
    rewrite Hfind in Hf; try discriminate Hf; injection Hf as <-.
  - rewrite Htruthy in Ht. discriminate Ht.
  - cbn [run]. rewrite Hk.
    match goal with |- context [settle_fetch ?t ?r ?s0] =>
      destruct (settle_fetch_cases t r s0) as [E|(data & t' & s' & _ & E & _ & _)]
    end; rewrite E; reflexivity.
Qed.

(** X16.  A record left behind by a failed creation can still be read: when
    the processor rejects the creation call, a later fetch of the identifier
    handed out for the request answers 200 with the record (status
    [pending], external id null), and does so from the table alone, without
    a processor call and without a write. *)
Theorem orphan_is_fetched_locally key req_body s user stub e stub' later :
  primary_key s ->
  nullish req_body = false ->
  findByPk User.id (Users s) (get req_body "userId") = inr (Some user) ->
  acceptable_request req_body = true ->
  (forall url payload headers, stub (AxiosPost url payload headers) = Rejected e) ->
  exists t,
    run stub'
        (get_api_transactions_id key (Z_toString (next_id s))
           (at_time later (final_store (run stub (post_api_transactions key req_body s))))) =
      (inl (res_json (Transaction.toJSON t)),
       at_time later (final_store (run stub (post_api_transactions key req_body s))),
       []) /\
    Transaction.id t = next_id s /\
    Transaction.status t = VStr "pending" /\
    Transaction.moonpayTransactionId t = VNull.
Proof.
  intros [_ Hlt] Hb Hu Hok Hstub.
  rewrite (post_rejected_store key req_body s user stub e Hb Hu Hok Hstub).
  set (t := pending_record req_body s).
  set (s1 := at_time later (inserted t s)).
  exists t. split; [|repeat split].
  assert (Hfind : findByPk Transaction.id (Transactions s1) (VStr (Z_toString (next_id s))) =
                  inr (Some t)).
  { unfold findByPk. cbn [s1 at_time inserted Transactions]. f_equal.
    apply find_last.
    - apply (pk_of_new_row _ (next_id s)); [exact Hlt|right; reflexivity].
    - change (Transaction.id t) with (next_id s).
      rewrite pk_eq_Z_toString. apply Z.eqb_refl. }
  destruct (get_api_transactions_id_spec key (Z_toString (next_id s)) s1)
    as [Hf|t0 Hf Ht|t0 k Hf Ht Hk];
    rewrite Hfind in Hf; try discriminate Hf; injection Hf as <-.
  - reflexivity.
  - discriminate Ht.
Qed.

Lemma orphan_is_fetched_locally_witness :
  exists t,
    outcome (run accepting
               (get_api_transactions_id api_key "3"
                  (at_time 90 (final_store
                                 (run refusing (post_api_transactions api_key test_body store0)))))) =
      inl (res_json (Transaction.toJSON t)) /\
    Transaction.status t = VStr "pending".
Proof.
  destruct (orphan_is_fetched_locally api_key test_body store0 alice refusing
              (mkError "Request failed with status code 400"
                       (Some (VObj [("message", VStr "Invalid wallet address")])))
              accepting 90)
    as (t & Hrun & _ & Hst & _); try reflexivity.
  - split; cbn; repeat constructor; cbn; try lia; intuition discriminate.
  - exists t. split; [|exact Hst].
    change (Z_toString (next_id store0)) with "3" in Hrun. rewrite Hrun. reflexivity.
Defined.

(** X17.  The id the processor returns at creation is the id looked up
    later: after a creation the processor accepted with a non-empty string
    id, a fetch of the identifier handed out for the request calls the
    processor exactly once, for that id. *)
Theorem accepted_id_is_looked_up key req_body s user stub data i stub' later :
  primary_key s ->
  nullish req_body = false ->
  findByPk User.id (Users s) (get req_body "userId") = inr (Some user) ->
  acceptable_request req_body = true ->
  nullish (get req_body "userDetails") = false ->
  (forall url payload headers, stub (AxiosPost url payload headers) = Fulfilled data) ->
  get data "id" = VStr i ->
  i <> "" ->
  text_ok (get data "status") = true ->
  calls_made
    (run stub'
       (get_api_transactions_id key (Z_toString (next_id s))
          (at_time later (final_store (run stub (post_api_transactions key req_body s)))))) =
  [AxiosGet ("https://api.moonpay.com/v1/transactions/" ++ i) [("X-API-KEY", key)]].
Proof.
  intros [_ Hlt] Hb Hu Hok Hw Hstub Hid Hne Hstt.
  rewrite (post_accepted_store key req_body s user stub data Hb Hu Hok Hw Hstub);
    try (rewrite Hid; reflexivity); try exact Hstt.
  set (t := pending_record req_body s).
  set (f := accepted (get data "id") (get data "status") (clock s)).
  assert (Hfind : findByPk Transaction.id
                    (Transactions (at_time later (rewrite_row (next_id s) f (inserted t s))))
                    (VStr (Z_toString (next_id s))) = inr (Some (f t))).
  { unfold findByPk. cbn [at_time Transactions]. f_equal.
    rewrite (new_row_rewritten f t s Hlt eq_refl).
    apply find_last.
    - apply (pk_of_new_row _ (next_id s)); [exact Hlt|right; reflexivity].
    - change (Transaction.id (f t)) with (next_id s).
      rewrite pk_eq_Z_toString. apply Z.eqb_refl. }
  rewrite (fetch_calls key _ _ (f t) stub' Hfind).
  - unfold f. cbn. rewrite Hid. reflexivity.
  - unfold f. cbn. rewrite Hid. cbn.
    destruct (String.eqb_spec i ""); [contradiction|reflexivity].
Qed.

Lemma accepted_id_is_looked_up_witness :
  calls_made
    (run refusing
       (get_api_transactions_id api_key "3"
          (at_time 90 (final_store
                         (run accepting (post_api_transactions api_key test_body store0)))))) =
  [AxiosGet "https://api.moonpay.com/v1/transactions/ext_1" [("X-API-KEY", api_key)]].
Proof.
  apply (accepted_id_is_looked_up api_key test_body store0 alice accepting
           (VObj [("id", VStr "ext_1");
                  ("status", VStr "waitingPayment");
                  ("redirectUrl", VStr "https://pay/ext_1")])
           "ext_1" refusing 90); try reflexivity.
  - split; cbn; repeat constructor; cbn; try lia; intuition discriminate.
  - discriminate.
Defined.

(** X18.  A webhook reaches the record a creation made: after a creation
    the processor accepted with a string id that no earlier record carries,
    a webhook for that id with a status (text) writes the new record, the
    last row of the table, and leaves the rows before it as they were; the
    record keeps its identifier and its external id. *)
Theorem webhook_reaches_created_record
    key req_body s user stub data i later hook hook_data st :
  primary_key s ->
  nullish req_body = false ->
  findByPk User.id (Users s) (get req_body "userId") = inr (Some user) ->
  acceptable_request req_body = true ->
  nullish (get req_body "userDetails") = false ->
  (forall url payload headers, stub (AxiosPost url payload headers) = Fulfilled data) ->
  get data "id" = VStr i ->
  text_ok (get data "status") = true ->
  (forall r, In r (Transactions s) -> Transaction.moonpayTransactionId r <> VStr i) ->
  get hook "data" = hook_data ->
  get hook_data "id" = VStr i ->
  get hook_data "status" = VStr st ->
  exists t s2,
    post_api_webhook_moonpay hook
      (at_time later (final_store (run stub (post_api_transactions key req_body s)))) =
      Ret (res_status_send 200 "OK") s2 /\
    Transactions s2 = (Transactions s ++ [t])%list /\
    Transaction.id t = next_id s /\
    Transaction.moonpayTransactionId t = VStr i /\
    Transaction.status t = VStr st.
Proof.
  intros [_ Hlt] Hb Hu Hok Hw Hstub Hid Hstt Hfresh Hhook Hhid Hhst.
  rewrite (post_accepted_store key req_body s user stub data Hb Hu Hok Hw Hstub);
    try (rewrite Hid; reflexivity); try exact Hstt.
  set (t := pending_record req_body s).
  set (f := accepted (get data "id") (get data "status") (clock s)).
  set (s1 := at_time later (rewrite_row (next_id s) f (inserted t s))).
  assert (Htab : Transactions s1 = (Transactions s ++ [f t])%list).
  { apply (new_row_rewritten f t s Hlt eq_refl). }
  assert (Hext : Transaction.moonpayTransactionId (f t) = VStr i).
  { unfold f. cbn. rewrite Hid. reflexivity. }
  rewrite post_api_webhook_moonpay_eq, Hhook.
  destruct hook; try (cbn in Hhook; subst hook_data; discriminate Hhid). cbn [nullish].
  destruct hook_data; try discriminate Hhid. cbn [nullish].
  rewrite Hhid. cbn [refused_key]. unfold settle_webhook. rewrite Hhid, Htab.
  rewrite find_last.
  - unfold merge_reconciled. rewrite Hhst. cbn [array_or_object].
    destruct (unchanged (VStr st) (Transaction.status (f t)) &&
              unchanged (get (VObj fields0) "cryptoAmount")
                        (Transaction.cryptoAmount (f t))) eqn:Hun.
    + apply andb_prop in Hun as [Hun _]. apply unchanged_merge in Hun. cbn [merge] in Hun.
      exists (f t), s1. split; [reflexivity|]. split; [exact Htab|].
      split; [reflexivity|]. split; [exact Hext|]. symmetry. exact Hun.
    + set (g := reconciled (VStr st) (get (VObj fields0) "cryptoAmount") (clock s1)).
      exists (g (f t)). eexists. split; [reflexivity|].
      split; [|repeat split; assumption].
      unfold rewrite_row. cbn [Transactions]. rewrite Htab, map_app. cbn [map].
      change (Transaction.id (f t)) with (next_id s). rewrite Z.eqb_refl. f_equal.
      rewrite <- (map_id (Transactions s)) at 2. apply map_ext_in.
      intros r Hr. rewrite Forall_forall in Hlt. specialize (Hlt r Hr).
      destruct (Z.eqb_spec (Transaction.id r) (next_id s)); [lia|reflexivity].
  - intros r Hr. specialize (Hfresh r Hr).
    destruct (Transaction.moonpayTransactionId r); try reflexivity.
    cbn. destruct (String.eqb_spec i s0); [subst; contradiction|reflexivity].
  - rewrite Hext. cbn. apply String.eqb_refl.
Qed.

Lemma webhook_reaches_created_record_witness :
  exists t s2,
    post_api_webhook_moonpay
      (VObj [("data", VObj [("id", VStr "ext_7"); ("status", VStr "completed")])])
      (at_time 90
         (final_store
            (run (fun _ => Fulfilled (VObj [("id", VStr "ext_7"); ("status", VStr "pending")]))
                 (post_api_transactions api_key test_body store0)))) =
      Ret (res_status_send 200 "OK") s2 /\
    Transactions s2 = [tx1; tx2; t] /\
    Transaction.status t = VStr "completed".
Proof.
  destruct (webhook_reaches_created_record api_key test_body store0 alice
              (fun _ => Fulfilled (VObj [("id", VStr "ext_7"); ("status", VStr "pending")]))
              (VObj [("id", VStr "ext_7"); ("status", VStr "pending")])
              "ext_7" 90
              (VObj [("data", VObj [("id", VStr "ext_7"); ("status", VStr "completed")])])
              (VObj [("id", VStr "ext_7"); ("status", VStr "completed")])
              "completed")
    as (t & s2 & Hrun & Htab & _ & _ & Hst); try reflexivity.
  - split; cbn; repeat constructor; cbn; try lia; intuition discriminate.
  - intros r [<-|[<-|[]]]; discriminate.
  - exists t, s2. repeat split; assumption.
Defined.



(** ** The migration and the model *)

(** X20.  The migration's [down] undoes its [up]: on a data base without a
    [Transactions] table, [up] creates that table with the migration's
    columns and [down] then leaves the data base as it was before, every
    other table untouched. *)
Theorem down_undoes_up db :
  has_table "Transactions" db = false ->
  In ("Transactions", Transactions_table) (up db) /\
  down (up db) = db.
Proof.
  intros Hno. unfold up, down, createTable. rewrite Hno. split.
  - apply in_or_app. right. left. reflexivity.
  - unfold dropTable. rewrite filter_app. cbn. rewrite app_nil_r.
    induction db as [|[name cols] db IH]; [reflexivity|].
    cbn in Hno. apply orb_false_iff in Hno as [Hname Hrest].
    cbn. rewrite Hname. cbn. f_equal. apply IH. exact Hrest.
Qed.

Lemma down_undoes_up_witness :
  down (up [("Users", []); ("SequelizeMeta", [mkColumn "name" STRING false false true])]) =
  [("Users", []); ("SequelizeMeta", [mkColumn "name" STRING false false true])].
Proof.
  apply down_undoes_up. reflexivity.
Defined.

(** X21.  The model and the migration agree: every attribute the model
    declares has a column of the same name, type and nullability in the
    table the migration creates; the columns of the table are distinct, and
    the only ones the model does not declare are [id], [createdAt] and
    [updatedAt]. *)
Theorem model_matches_table :
  (forall a, In a Transaction_init ->
     In (mkColumn (attr_name a) (attr_type a) (attr_allowNull a) false false)
        Transactions_table) /\
  (forall c, In c Transactions_table ->
     In (col_name c) declared \/ In (col_name c) ["id"; "createdAt"; "updatedAt"]) /\
  NoDup (map col_name Transactions_table).
Proof.
  split; [|split].
  - intros a Ha. cbn in Ha.
    repeat (destruct Ha as [<-|Ha]; [cbn; tauto|]). contradiction.
  - intros c Hc. cbn in Hc.
    repeat (destruct Hc as [<-|Hc]; [cbn; tauto|]). contradiction.
  - cbn. repeat constructor; cbn; intuition discriminate.
Qed.

(** ** The test client against the server *)

(** X22.  What [test.js] prints when its request is served by the creation
    handler: if user 1 does not exist, one error line with the 404 body
    [{ error: 'User not found' }]; if the user exists and the processor
    fulfils the call with a body whose id and status are not arrays or
    objects, two lines: the body of the answer, which is the created record
    (with the identifier handed out, the external id of the response, and
    the status of the response or, without one, [pending]) together with
    the payment URL, and then the payment URL, which is the processor's
    redirect URL; if the user exists and the processor rejects the call, one
    error line with the 500 body, whose details are the processor's; if the
    processor fulfils the call with null for its data or with an id or
    status that is an array or an object, one error line with a 500 body. *)
Theorem testTransaction_against_server key stub s :
  (findByPk User.id (Users s) (VNum 1) = inr None ->
   testTransaction (local_server key stub s) =
   [console_error [VStr "Error:"; VObj [("error", VStr "User not found")]]]) /\
  (forall user data,
     findByPk User.id (Users s) (VNum 1) = inr (Some user) ->
     (forall url payload headers, stub (AxiosPost url payload headers) = Fulfilled data) ->
     nullish data = false ->
     text_ok (get data "id") = true ->
     text_ok (get data "status") = true ->
     exists body,
       testTransaction (local_server key stub s) =
       [console_log [VStr "Transaction created:"; body];
        console_log [VStr "Complete payment at:"; get data "redirectUrl"]] /\
       get body "moonpayUrl" = get data "redirectUrl" /\
       get (get body "transaction") "id" = VNum (next_id s) /\
       get (get body "transaction") "moonpayTransactionId" = get data "id" /\
       get (get body "transaction") "status" =
         (if undefined (get data "status") then VStr "pending" else get data "status")) /\
  (forall user e,
     findByPk User.id (Users s) (VNum 1) = inr (Some user) ->
     (forall url payload headers, stub (AxiosPost url payload headers) = Rejected e) ->
     testTransaction (local_server key stub s) =
     [console_error
        [VStr "Error:";
         VObj [("error", VStr "Transaction failed"); ("details", error_details e)]]]) /\
  (forall user data,
     findByPk User.id (Users s) (VNum 1) = inr (Some user) ->
     (forall url payload headers, stub (AxiosPost url payload headers) = Fulfilled data) ->
     nullish data = true \/ text_ok (get data "id") = false \/
     text_ok (get data "status") = false ->
     exists details,
       testTransaction (local_server key stub s) =
       [console_error
          [VStr "Error:";
           VObj [("error", VStr "Transaction failed"); ("details", details)]]]).
Proof.
  unfold testTransaction, local_server.
  destruct (post_api_transactions_spec key test_body s)
    as [e0 [H|[H|H]]|Hb' Hu'|user' e0 Hb' Hu' Hok' Hw'|user' k Hb' Hu' Hok' Hw' Hk];
    try discriminate H; try discriminate Hw'.
  - change (get test_body "userId") with (VNum 1) in Hu'.
    split; [reflexivity|]. repeat split; intros; congruence.
  - change (get test_body "userId") with (VNum 1) in Hu'.
    split; [intros; congruence|]. cbn [run]. rewrite Hk. split; [|split].
    + intros user data _ Hstub Hn Hidt Hstt. rewrite Hstub. unfold settle_create.
      rewrite Hn.
      destruct (merge_accepted_ok test_body s (get data "id") (get data "status")
                  (inserted (pending_record test_body s) s) Hidt Hstt)
        as (t' & s' & -> & Hi & Hext & Hst & _).
      eexists. split; [reflexivity|]. split; [reflexivity|].
      repeat split; assumption.
    + intros user e _ Hstub. rewrite Hstub. reflexivity.
    + intros user data _ Hstub H. rewrite Hstub. unfold settle_create.
      destruct (nullish data) eqn:Hn; [eexists; reflexivity|].
      destruct (merge_accepted_refused test_body s (get data "id") (get data "status")
                  (inserted (pending_record test_body s) s)) as [msg ->].
      { destruct H as [H|H]; [discriminate H|exact H]. }
      eexists. reflexivity.
Qed.

Lemma testTransaction_against_server_witness :
  testTransaction (local_server api_key refusing store0) =
  [console_error
     [VStr "Error:";
      VObj [("error", VStr "Transaction failed");
            ("details", VObj [("message", VStr "Invalid wallet address")])]]].
Proof.
  destruct (testTransaction_against_server api_key refusing store0) as (_ & _ & H & _).
  apply (H alice (mkError "Request failed with status code 400"
                          (Some (VObj [("message", VStr "Invalid wallet address")]))));
    reflexivity.
Defined.

(** ** Answers of the processor that cannot be merged *)

(** X23.  When the processor fulfils the creation call with null (or
    undefined) for the data of the response, the handler answers 500 after
    its one call, and the record of the request stays as it was inserted,
    with status [pending] and a null external id, although the processor
    accepted the request. *)
Theorem create_accepted_without_body key req_body s user stub data :
  nullish req_body = false ->
  findByPk User.id (Users s) (get req_body "userId") = inr (Some user) ->
  acceptable_request req_body = true ->
  nullish (get req_body "userDetails") = false ->
  (forall url payload headers, stub (AxiosPost url payload headers) = Fulfilled data) ->
  nullish data = true ->
  exists resp t c,
    run stub (post_api_transactions key req_body s) =
      (inl resp,
       mkStore (Users s) (Transactions s ++ [t]) (next_id s + 1) (clock s),
       [c]) /\
    statusCode resp = 500 /\
    Transaction.id t = next_id s /\
    Transaction.status t = VStr "pending" /\
    Transaction.moonpayTransactionId t = VNull.
Proof.
  intros Hb Hu Hok Hw Hstub Hn.
  destruct (post_api_transactions_spec key req_body s)
    as [e0 [H|[H|H]]|Hb' Hu'|user' e0 Hb' Hu' Hok' Hw'|user' k Hb' Hu' Hok' Hw' Hk];
    try congruence.
  cbn [run]. rewrite Hk, Hstub. unfold settle_create. rewrite Hn.
  do 3 eexists. split; [reflexivity|]. repeat split.
Qed.

Lemma create_accepted_without_body_witness :
  exists resp t c,
    run (fun _ => Fulfilled VNull) (post_api_transactions api_key test_body store0) =
      (inl resp, mkStore [alice] [tx1; tx2; t] 4 30, [c]) /\
    statusCode resp = 500 /\
    Transaction.moonpayTransactionId t = VNull.
Proof.
  destruct (create_accepted_without_body api_key test_body store0 alice
              (fun _ => Fulfilled VNull) VNull)
    as (resp & t & c & Hrun & Hcode & _ & _ & Hext); try reflexivity.
  exists resp, t, c. repeat split; assumption.
Defined.



(** X25.  A lookup response whose data is not an object (axios gives the
    empty string for a response without a body) reconciles nothing: the
    fetch answers 200 with the stored record after its one call, and the
    store is left as it was. *)
Theorem fetch_with_empty_body key id s t stub data :
  findByPk Transaction.id (Transactions s) (VStr id) = inr (Some t) ->
  truthy (Transaction.moonpayTransactionId t) = true ->
  (forall url headers, stub (AxiosGet url headers) = Fulfilled data) ->
  nullish data = false ->
  (forall fields, data <> VObj fields) ->
  run stub (get_api_transactions_id key id s) =
  (inl (res_json (Transaction.toJSON t)),
   s,
   [AxiosGet (MOONPAY_BASE_URL ++ "/v1/transactions/" ++
              toString (Transaction.moonpayTransactionId t))
             [("X-API-KEY", key)]]).
Proof.
  intros Hfind Htruthy Hstub Hn Hobj.
  destruct (get_api_transactions_id_spec key id s) as [Hf|t0 Hf Ht|t0 k Hf Ht Hk];
    rewrite Hfind in Hf; try discriminate Hf; injection Hf as <-.
  - rewrite Htruthy in Ht. discriminate Ht.
  - cbn [run]. rewrite Hk, Hstub. unfold settle_fetch. rewrite Hn.
    assert (Hst : get data "status" = VUndefined /\ get data "cryptoAmount" = VUndefined).
    { destruct data; try (split; reflexivity). exfalso. exact (Hobj fields eq_refl). }
    destruct Hst as [-> ->]. reflexivity.
Qed.

Lemma fetch_with_empty_body_witness :
  run (fun _ => Fulfilled (VStr "")) (get_api_transactions_id api_key "1" store0) =
  (inl (res_json (Transaction.toJSON tx1)),
   store0,
   [AxiosGet "https://api.moonpay.com/v1/transactions/ext_1" [("X-API-KEY", api_key)]]).
Proof.
  apply (fetch_with_empty_body api_key "1" store0 tx1 (fun _ => Fulfilled (VStr "")) (VStr ""));
    try reflexivity.
  intros fields. discriminate.
Defined.

(** X26.  A creation the processor fulfils with data that is not an object
    (the empty string of a response without a body) is answered 200 although
    nothing was merged: the record of the answer has status [pending] and no
    external id, the answer has no payment URL, and the table is the old
    table followed by the record of the request, with status [pending] and
    a null external id. *)
Theorem create_accepted_with_empty_body key req_body s user stub data :
  nullish req_body = false ->
  findByPk User.id (Users s) (get req_body "userId") = inr (Some user) ->
  acceptable_request req_body = true ->
  nullish (get req_body "userDetails") = false ->
  (forall url payload headers, stub (AxiosPost url payload headers) = Fulfilled data) ->
  nullish data = false ->
  (forall fields, data <> VObj fields) ->
  exists transaction t,
    outcome (run stub (post_api_transactions key req_body s)) =
      inl (res_json (VObj [("transaction", transaction); ("moonpayUrl", VUndefined)])) /\
    get transaction "id" = VNum (next_id s) /\
    get transaction "status" = VStr "pending" /\
    get transaction "moonpayTransactionId" = VUndefined /\
    Transactions (final_store (run stub (post_api_transactions key req_body s))) =
      (Transactions s ++ [t])%list /\
    Transaction.id t = next_id s /\
    Transaction.status t = VStr "pending" /\
    Transaction.moonpayTransactionId t = VNull.
Proof.
  intros Hb Hu Hok Hw Hstub Hn Hobj.
  destruct (post_api_transactions_spec key req_body s)
    as [e0 [H|[H|H]]|Hb' Hu'|user' e0 Hb' Hu' Hok' Hw'|user' k Hb' Hu' Hok' Hw' Hk];
    try congruence.
  cbn [run]. rewrite Hk, Hstub. unfold settle_create. rewrite Hn.
  assert (Hst : get data "id" = VUndefined /\ get data "status" = VUndefined /\
                get data "redirectUrl" = VUndefined).
  { destruct data; try (repeat split; reflexivity). exfalso. exact (Hobj fields eq_refl). }
  unfold created. destruct Hst as (-> & -> & ->).
  do 2 eexists. repeat split.
Qed.

Lemma create_accepted_with_empty_body_witness :
  exists transaction t,
    outcome (run (fun _ => Fulfilled (VStr "")) (post_api_transactions api_key test_body store0)) =
      inl (res_json (VObj [("transaction", transaction); ("moonpayUrl", VUndefined)])) /\
    get transaction "status" = VStr "pending" /\
    Transactions (final_store (run (fun _ => Fulfilled (VStr ""))
                                   (post_api_transactions api_key test_body store0))) =
      [tx1; tx2; t] /\
    Transaction.moonpayTransactionId t = VNull.
Proof.
  destruct (create_accepted_with_empty_body api_key test_body store0 alice
              (fun _ => Fulfilled (VStr "")) (VStr ""))
    as (transaction & t & Hout & _ & Hst & _ & Htab & _ & _ & Hext); try reflexivity.
  - intros fields. discriminate.
  - exists transaction, t. repeat split; assumption.
Defined.
